(** * ciqx: build / run / watch orchestration

    A shallow embedding of [ciqx.py] (the compiler and emulator classes,
    [ProjectWatcher], and the [build], [run] and [watch] methods of
    [CiqxApp]) together with the properties its specification states.

    Python objects become records, methods become functions in a small
    state-and-exception monad [M]; everything the program does to the
    outside (console, subprocesses, file system, observer thread) is
    recorded in an effect trace. *)

From Stdlib Require Import List String Ascii Bool ZArith QArith Lia Lqa.
From Stdlib Require Import DecimalString.
Import ListNotations.

Close Scope Q_scope.
Open Scope list_scope.
Open Scope string_scope.

(** ** Strings and paths *)

Definition Path := string.

(** [p / c] of [pathlib]. *)
Definition path_join (p : Path) (c : string) : Path := p ++ "/" ++ c.

(** [PurePath.name]: the text after the last separator. *)
Fixpoint path_name_aux (acc : string) (p : string) : string :=
  match p with
  | EmptyString => acc
  | String c rest =>
      if Ascii.eqb c "/"%char then path_name_aux "" rest
      else path_name_aux (acc ++ String c "") rest
  end.

Definition path_name (p : Path) : string := path_name_aux "" p.

(** [str.isspace] on the ASCII range. *)
Definition is_space (c : ascii) : bool :=
  let n := nat_of_ascii c in
  ((9 <=? n) && (n <=? 13) || (28 <=? n) && (n <=? 32))%nat.

Fixpoint lstrip (s : string) : string :=
  match s with
  | EmptyString => EmptyString
  | String c rest => if is_space c then lstrip rest else s
  end.

Fixpoint rstrip (s : string) : string :=
  match s with
  | EmptyString => EmptyString
  | String c rest =>
      let rest' := rstrip rest in
      if (rest' =? "") && is_space c then EmptyString else String c rest'
  end.

(** [str.strip()] *)
Definition strip (s : string) : string := rstrip (lstrip s).

(** [str(n)] for a non-negative [int]. *)
Definition str_of_nat (n : nat) : string :=
  NilEmpty.string_of_uint (Nat.to_uint n).

(** ** Enumerations and configuration models *)

Inductive Profile := DEBUG | RELEASE.

Definition Profile_value (p : Profile) : string :=
  match p with DEBUG => "debug" | RELEASE => "release" end.

Definition Profile_eqb (p q : Profile) : bool :=
  match p, q with
  | DEBUG, DEBUG | RELEASE, RELEASE => true
  | _, _ => false
  end.

Record ProjectConfig := {
  manifest : string;
  out_dir : string
}.

Record DevicesConfig := {
  default : string;
  targets : list string
}.

Record SigningConfig := {
  developer_key : string
}.

Record CiqxConfig := {
  project : ProjectConfig;
  devices : DevicesConfig;
  signing : SigningConfig
}.

(** The defaults of the pydantic models. *)
Definition default_config : CiqxConfig :=
  {| project := {| manifest := "manifest.xml"; out_dir := "build" |};
     devices := {| default := "fenix7"; targets := ["fenix7"; "venu2"] |};
     signing := {| developer_key := "developer_key.der" |} |}.

(** ** Effects, exceptions and the monad *)

(** What the program does to its surroundings, in the order it does it. *)
Inductive Effect :=
| LogInfo (message : string)
| LogError (message : string)
| LogDebug (message : string)
| LogSuccess (message : string)
| ConsolePrint (text : string)
| Mkdir (p : Path)
| SubprocessRun (cmd : list string)
| SubprocessPopen (cmd : list string)
| ProcessTerminate (cmd : list string)
| ProgressAddTask (description : string) (total : nat)
| ProgressUpdate (description : string)
| ProgressAdvance
| ObserverSchedule (patterns : list string) (path : string) (recursive : bool)
| ObserverStart
| ObserverStop
| ObserverJoin
| Sleep (seconds : nat).

Inductive Exn :=
| KeyboardInterrupt
| RuntimeError (msg : string)
| CalledProcessError (returncode : Z) (stderr : string)
| OSError
| UnicodeDecodeError
| MarkupError (msg : string).

(** A call returns a value, raises, or never comes back. *)
Inductive Result (A : Type) :=
| Ok (a : A)
| Raise (e : Exn)
| Hang.

Arguments Ok {A} a.
Arguments Raise {A} e.
Arguments Hang {A}.

Record CompletedProcess := {
  cp_returncode : Z;
  cp_stdout : string;
  cp_stderr : string
}.

(** One turn of the streaming loop of [CiqxApp.run], as the foreground
    thread experiences it: [readline()] hands back [output] (and [poll]
    is what [process.poll()] answers if it is asked), or the user's
    interrupt arrives while the loop is blocked, or [readline()] raises
    (output that does not decode). *)
Inductive ReadStep :=
| Read (output : string) (poll : option Z)
| ReadInterrupt
| ReadRaises (e : Exn).

(** [subprocess.Popen] object held by [CiqxApp.run]. *)
Record Popen := {
  popen_args : list string;
  popen_pending : list ReadStep
}.

(** One turn of the idle loop of [CiqxApp.watch]: [time.sleep(1)]
    returns, or the interrupt arrives during it. *)
Inductive IdleStep := Slept | IdleInterrupt.

(** ** The outside world

    The file system and the external executables, as far as the program
    can tell: which paths exist, what creating a directory does, what a
    command run to completion answers, what the reader of a spawned
    command's output will meet, and [PurePath.match]. *)
Class Toolchain := {
  World : Type;
  path_exists : World -> Path -> bool;
  (** [Path.mkdir(exist_ok=True)]; [None] when it raises [OSError]. *)
  path_mkdir : World -> Path -> option World;
  os_run : World -> list string -> CompletedProcess * World;
  os_spawn : World -> list string -> list ReadStep * World;
  path_match : string -> string -> bool
}.

Section Orchestration.

Context {tc : Toolchain}.

Record State := mkState {
  world : World;
  trace : list Effect
}.

Definition M (A : Type) : Type := State -> Result A * State.

Definition ret {A} (a : A) : M A := fun s => (Ok a, s).

Definition bind {A B} (c : M A) (k : A -> M B) : M B :=
  fun s =>
    match c s with
    | (Ok a, s') => k a s'
    | (Raise e, s') => (Raise e, s')
    | (Hang, s') => (Hang, s')
    end.

Definition raise {A} (e : Exn) : M A := fun s => (Raise e, s).

Definition hang {A} : M A := fun s => (Hang, s).

(** [try: c  except <those e with handler e = Some k>: k] *)
Definition try_except {A} (c : M A) (handler : Exn -> option (M A)) : M A :=
  fun s =>
    match c s with
    | (Raise e, s') =>
        match handler e with
        | Some k => k s'
        | None => (Raise e, s')
        end
    | r => r
    end.

Definition emit (e : Effect) : M unit :=
  fun s => (Ok tt, {| world := world s; trace := (trace s ++ [e])%list |}).

Notation "x <- c ;; k" := (bind c (fun x => k))
  (at level 61, c at next level, right associativity).
Notation "c ;; k" := (bind c (fun _ => k))
  (at level 61, right associativity).

Definition exists_ (p : Path) : M bool :=
  fun s => (Ok (path_exists (world s) p), s).

Definition mkdir_exist_ok (p : Path) : M unit :=
  fun s =>
    match path_mkdir (world s) p with
    | Some w' => (Ok tt, {| world := w'; trace := (trace s ++ [Mkdir p])%list |})
    | None => (Raise OSError, s)
    end.

(** [subprocess.run(cmd, capture_output=True, text=True, check=True)] *)
Definition subprocess_run (cmd : list string) : M CompletedProcess :=
  fun s =>
    let (cp, w') := os_run (world s) cmd in
    let s' := {| world := w'; trace := (trace s ++ [SubprocessRun cmd])%list |} in
    if (cp_returncode cp =? 0)%Z then (Ok cp, s')
    else (Raise (CalledProcessError (cp_returncode cp) (cp_stderr cp)), s').

(** [subprocess.Popen(cmd, stdout=PIPE, stderr=STDOUT, text=True)] *)
Definition subprocess_Popen (cmd : list string) : M Popen :=
  fun s =>
    let (steps, w') := os_spawn (world s) cmd in
    (Ok {| popen_args := cmd; popen_pending := steps |},
     {| world := w'; trace := (trace s ++ [SubprocessPopen cmd])%list |}).

(** ** Domain interfaces *)

(** [Compiler.compile(target, profile, manifest, output, dev_key) -> bool] *)
Definition Compiler : Type :=
  string -> Profile -> Path -> Path -> Path -> M bool.

(** [Emulator.run(app_path, device) -> Popen] *)
Definition Emulator : Type := Path -> string -> M Popen.

(** ** GarminCompiler *)

Record GarminCompiler := {
  compiler_sdk_path : option Path
}.

Definition jungle_file : Path := "monkey.jungle".

(** The command of [GarminCompiler.compile], lines 175-198. *)
Definition compile_cmd (jungle_exists : bool) (monkeyc : Path)
    (target : string) (profile : Profile)
    (manifest output dev_key : Path) : list string :=
  let cmd :=
    if jungle_exists then
      [monkeyc; "-d"; target; "-f"; jungle_file; "-o"; output; "-y"; dev_key]
    else
      [monkeyc; "-f"; manifest; "-o"; output; "-d"; target; "-y"; dev_key] in
  if Profile_eqb profile DEBUG then (cmd ++ ["-g"])%list
  else if Profile_eqb profile RELEASE then (cmd ++ ["-r"])%list
  else cmd.

Definition GarminCompiler_compile (self : GarminCompiler) : Compiler :=
  fun target profile manifest output dev_key =>
    match compiler_sdk_path self with
    | None =>
        emit (LogError "Garmin SDK not found") ;;
        ret false
    | Some sdk_path =>
        let monkeyc := path_join (path_join sdk_path "bin") "monkeyc" in
        monkeyc_exists <- exists_ monkeyc ;;
        if negb monkeyc_exists then
          emit (LogError ("monkeyc not found at " ++ monkeyc)) ;;
          ret false
        else
          jungle_exists <- exists_ jungle_file ;;
          let cmd := compile_cmd jungle_exists monkeyc target profile
                                 manifest output dev_key in
          emit (LogInfo ("Building " ++ target ++ " ("
                         ++ Profile_value profile ++ ")...")) ;;
          try_except
            (_ <- subprocess_run cmd ;;
             emit (LogSuccess ("Built " ++ target ++ " successfully")) ;;
             ret true)
            (fun e =>
               match e with
               | CalledProcessError _ stderr =>
                   Some (emit (LogError ("Build failed: " ++ stderr)) ;;
                         ret false)
               | _ => None
               end)
    end.

(** ** GarminEmulator *)

Record GarminEmulator := {
  emulator_sdk_path : option Path
}.

Definition GarminEmulator_run (self : GarminEmulator) : Emulator :=
  fun app_path device =>
    match emulator_sdk_path self with
    | None => raise (RuntimeError "Garmin SDK not found")
    | Some sdk_path =>
        let monkeydo := path_join (path_join sdk_path "bin") "monkeydo" in
        monkeydo_exists <- exists_ monkeydo ;;
        if negb monkeydo_exists then
          raise (RuntimeError ("monkeydo not found at " ++ monkeydo))
        else
          emit (LogInfo ("Running " ++ path_name app_path
                         ++ " on " ++ device)) ;;
          subprocess_Popen [monkeydo; app_path; device]
    end.

(** ** CiqxApp *)

Record CiqxApp := {
  app_compiler : Compiler;
  app_emulator : Emulator;
  app_config : CiqxConfig
}.

(** [out_dir / f"{target}-{profile.value}.prg"] *)
Definition output_path (out_dir : Path) (target : string)
    (profile : Profile) : Path :=
  path_join out_dir (target ++ "-" ++ Profile_value profile ++ ".prg").

(** The [for device in config.devices.targets] loop of [build], with
    its counter. *)
Fixpoint build_loop (compiler : Compiler) (profile : Profile)
    (manifest out_dir dev_key : Path) (devices : list string)
    (success_count : nat) : M nat :=
  match devices with
  | [] => ret success_count
  | device :: rest =>
      emit (ProgressUpdate ("Building " ++ device)) ;;
      let output := output_path out_dir device profile in
      ok <- compiler device profile manifest output dev_key ;;
      let success_count :=
        if ok then (success_count + 1)%nat else success_count in
      emit ProgressAdvance ;;
      build_loop compiler profile manifest out_dir dev_key rest
                 success_count
  end.

Definition CiqxApp_build (self : CiqxApp) (target : string)
    (profile : Profile) (build_all : bool) : M unit :=
  let config := app_config self in
  let compiler := app_compiler self in
  let manifest := manifest (project config) in
  let out_dir := out_dir (project config) in
  mkdir_exist_ok out_dir ;;
  let dev_key := developer_key (signing config) in
  if build_all then
    let targets := targets (devices config) in
    emit (ProgressAddTask "Building..." (List.length targets)) ;;
    success_count <- build_loop compiler profile manifest out_dir
                                dev_key targets 0 ;;
    if (success_count =? List.length targets)%nat then
      emit (LogSuccess ("Built all " ++ str_of_nat success_count
                        ++ " targets successfully"))
    else
      emit (LogError ("Built " ++ str_of_nat success_count ++ "/"
                      ++ str_of_nat (List.length targets) ++ " targets"))
  else
    let output := output_path out_dir target profile in
    _ <- compiler target profile manifest output dev_key ;;
    ret tt.

Definition is_not_None {A} (x : option A) : bool :=
  match x with Some _ => true | None => false end.

(** *** The sweep as the specification words it

    [buildAll(targets, profile)]: one compile attempt per target, in the
    order supplied, each between two progress notifications, yielding
    the ordered sequence of results. *)

Record BuildResult := {
  br_target : string;
  br_succeeded : bool
}.

Fixpoint buildAll (compiler : Compiler) (profile : Profile)
    (manifest out_dir dev_key : Path) (targets : list string)
  : M (list BuildResult) :=
  match targets with
  | [] => ret []
  | target :: rest =>
      emit (ProgressUpdate ("Building " ++ target)) ;;
      ok <- compiler target profile manifest
                     (output_path out_dir target profile) dev_key ;;
      emit ProgressAdvance ;;
      results <- buildAll compiler profile manifest out_dir dev_key rest ;;
      ret ({| br_target := target; br_succeeded := ok |} :: results)
  end.

Definition succeeded_count (results : list BuildResult) : nat :=
  List.length (filter br_succeeded results).

(** The line that closes a sweep. *)
Definition sweep_report (succeeded total : nat) : Effect :=
  if (succeeded =? total)%nat then
    LogSuccess ("Built all " ++ str_of_nat succeeded
                ++ " targets successfully")
  else
    LogError ("Built " ++ str_of_nat succeeded ++ "/"
              ++ str_of_nat total ++ " targets").

(** The [while True] loop of [run] that streams the simulator's
    output; it consumes the turns the process still has to offer. *)
Fixpoint stream_output (steps : list ReadStep) : M unit :=
  match steps with
  | [] => hang
  | ReadInterrupt :: _ => raise KeyboardInterrupt
  | ReadRaises e :: _ => raise e
  | Read output poll :: rest =>
      if (output =? "") && is_not_None poll then ret tt
      else
        (if output =? "" then ret tt
         else emit (ConsolePrint ("[dim][SIM][/dim] " ++ strip output))) ;;
        stream_output rest
  end.

Definition CiqxApp_run (self : CiqxApp) (target : string)
    (profile : Profile) : M unit :=
  CiqxApp_build self target profile false ;;
  let config := app_config self in
  let out_dir := out_dir (project config) in
  let app_path := output_path out_dir target profile in
  app_exists <- exists_ app_path ;;
  if negb app_exists then
    emit (LogError ("App not found: " ++ app_path))
  else
    let emulator := app_emulator self in
    process <- emulator app_path target ;;
    try_except
      (stream_output (popen_pending process))
      (fun e =>
         match e with
         | KeyboardInterrupt =>
             Some (emit (LogInfo "Stopping simulator...") ;;
                   emit (ProcessTerminate (popen_args process)))
         | _ => None
         end).

(** The [while True: time.sleep(1)] loop of [watch]. *)
Fixpoint idle_loop (steps : list IdleStep) : M unit :=
  match steps with
  | [] => hang
  | Slept :: rest => emit (Sleep 1) ;; idle_loop rest
  | IdleInterrupt :: _ => raise KeyboardInterrupt
  end.

Definition watch_patterns : list string :=
  ["source/**/*.mc"; "resources/**/*"; "manifest.xml"].

(** The closure [rebuild] of [watch]. *)
Definition rebuild (self : CiqxApp) (target : string)
    (profile : Profile) : M unit :=
  emit (LogInfo "Files changed, rebuilding...") ;;
  CiqxApp_build self target profile false.

(** [watch], as its own thread lives it; [idle] is what happens to
    that thread once it sleeps.  The observer's thread appears through
    its life cycle only; what it does on an event is [on_modified]
    below. *)
Definition CiqxApp_watch (self : CiqxApp) (target : string)
    (profile : Profile) (idle : list IdleStep) : M unit :=
  emit (LogInfo ("Starting watch mode for " ++ target ++ " ("
                 ++ Profile_value profile ++ ")")) ;;
  emit (LogInfo "Press Ctrl+C to stop") ;;
  emit (ObserverSchedule watch_patterns "." true) ;;
  emit ObserverStart ;;
  try_except
    (CiqxApp_run self target profile ;;
     idle_loop idle)
    (fun e =>
       match e with
       | KeyboardInterrupt =>
           Some (emit ObserverStop ;;
                 emit (LogInfo "Watch mode stopped"))
       | _ => None
       end) ;;
  emit ObserverJoin.

(** ** Command line *)

(** The [build] command. *)
Definition build (ciqx : CiqxApp) (target : string) (profile : Profile)
    (all_targets : bool) : M unit :=
  CiqxApp_build ciqx target profile all_targets.

(** The [run] command. *)
Definition run (ciqx : CiqxApp) (target : string) (profile : Profile)
  : M unit :=
  CiqxApp_run ciqx target profile.

(** [app()]: the status the process exits with.  Typer exits with 0
    when the command function returns and with 1 when an exception
    leaves it; a command that never returns has no exit status. *)
Definition exit_status {A} (r : Result A * State) : option Z :=
  match fst r with
  | Ok _ => Some 0%Z
  | Raise _ => Some 1%Z
  | Hang => None
  end.

(** ** ProjectWatcher *)

Record FileSystemEvent := {
  is_directory : bool;
  src_path : string
}.

Record ProjectWatcher := {
  patterns : list string;
  last_modified : Q
}.

(** [ProjectWatcher(callback, patterns)] *)
Definition ProjectWatcher_init (patterns : list string) : ProjectWatcher :=
  {| patterns := patterns; last_modified := 0%Q |}.

Definition Qltb (x y : Q) : bool := negb (Qle_bool y x).

Section Handler.

(** The callback acts on whatever state [S] its owner keeps. *)
Context {S : Type}.
Variable callback : S -> S.

(** The [for pattern in self.patterns] loop of [on_modified]. *)
Fixpoint match_patterns (file_path : string) (pats : list string)
    (s : S) : S :=
  match pats with
  | [] => s
  | pattern :: rest =>
      if path_match file_path pattern then callback s
      else match_patterns file_path rest s
  end.

(** [on_modified(event)], where [now] is what [time.time()] answers
    during the call; times are exact rationals, in seconds. *)
Definition on_modified (self : ProjectWatcher) (event : FileSystemEvent)
    (now : Q) (s : S) : ProjectWatcher * S :=
  if is_directory event then (self, s)
  else if Qltb (now - last_modified self)%Q (1 # 2)%Q then (self, s)
  else
    let self' := {| patterns := patterns self; last_modified := now |} in
    (self', match_patterns (src_path event) (patterns self') s).

(** The observer delivers events one after the other. *)
Fixpoint dispatch (self : ProjectWatcher)
    (events : list (FileSystemEvent * Q)) (s : S) : ProjectWatcher * S :=
  match events with
  | [] => (self, s)
  | (event, now) :: rest =>
      let (self', s') := on_modified self event now s in
      dispatch self' rest s'
  end.

End Handler.

(** An event the specification calls eligible. *)
Definition eligible (self : ProjectWatcher) (event : FileSystemEvent)
  : bool :=
  negb (is_directory event)
  && existsb (path_match (src_path event)) (patterns self).

(** The condition under which [GarminEmulator.run] refuses to launch:
    no toolchain root, or no [monkeydo] under it. *)
Definition launcher_missing (self : GarminEmulator) (w : World) : bool :=
  match emulator_sdk_path self with
  | None => true
  | Some sdk_path =>
      negb (path_exists w (path_join (path_join sdk_path "bin") "monkeydo"))
  end.

(** A turn after which the streaming loop goes round again. *)
Definition keeps_streaming (step : ReadStep) : bool :=
  match step with
  | Read output poll => negb ((output =? "") && is_not_None poll)
  | ReadInterrupt => false
  | ReadRaises _ => false
  end.

(** What a turn of the streaming loop sends to the console. *)
Definition printed (step : ReadStep) : list Effect :=
  match step with
  | Read output _ =>
      if output =? "" then []
      else [ConsolePrint ("[dim][SIM][/dim] " ++ strip output)]
  | ReadInterrupt => []
  | ReadRaises _ => []
  end.

(** A compiler that answers every call. *)
Definition returns (compiler : Compiler) : Prop :=
  forall target profile manifest output dev_key s,
  exists (b : bool) (s' : State),
    compiler target profile manifest output dev_key s = (Ok b, s').

End Orchestration.

Notation "x <- c ;; k" := (bind c (fun x => k))
  (at level 61, c at next level, right associativity).
Notation "c ;; k" := (bind c (fun _ => k))
  (at level 61, right associativity).

(** ** Toolchain discovery, diagnostics and the service container *)

(** What the discovery of the SDK needs of the file system beyond
    [Toolchain]: the home directory, the entries of a directory
    ([None] when [iterdir] raises, the path not being a directory) and
    [Path.is_dir]. *)
Class Directories {tc : Toolchain} := {
  home : Path;
  iterdir : World -> Path -> option (list Path);
  is_dir : World -> Path -> bool
}.

(** [needle in hay] on [str]. *)
Fixpoint contains (needle hay : string) : bool :=
  prefix needle hay
  || match hay with
     | EmptyString => false
     | String _ rest => contains needle rest
     end.

Section Discovery.

Context {tc : Toolchain} {dirs : Directories}.

(** The [candidates] of [_find_sdk]. *)
Definition sdk_candidates : list Path :=
  [path_join (path_join (path_join home ".Garmin") "ConnectIQ") "SDK";
   path_join
     (path_join
        (path_join
           (path_join (path_join home "Library") "Application Support")
           "Garmin")
        "ConnectIQ")
     "Sdks";
   "/Applications/Garmin Connect IQ SDK"].

(** The [for subdir in candidate.iterdir()] loop of [_find_sdk]. *)
Fixpoint find_versioned (w : World) (subdirs : list Path) : option Path :=
  match subdirs with
  | [] => None
  | subdir :: rest =>
      if is_dir w subdir && contains "connectiq-sdk" (path_name subdir) then
        if path_exists w (path_join subdir "bin") then Some subdir
        else find_versioned w rest
      else find_versioned w rest
  end.

(** The [for candidate in candidates] loop of [_find_sdk]. *)
Fixpoint find_sdk_in (candidates : list Path) : M (option Path) :=
  match candidates with
  | [] => ret None
  | candidate :: rest =>
      candidate_exists <- exists_ candidate ;;
      if candidate_exists then
        bin_exists <- exists_ (path_join candidate "bin") ;;
        if bin_exists then ret (Some candidate)
        else
          fun s =>
            match iterdir (world s) candidate with
            | None => (Raise OSError, s)
            | Some subdirs =>
                match find_versioned (world s) subdirs with
                | Some subdir => (Ok (Some subdir), s)
                | None => find_sdk_in rest s
                end
            end
      else find_sdk_in rest
  end.

(** [GarminCompiler._find_sdk] *)
Definition GarminCompiler_find_sdk : M (option Path) :=
  find_sdk_in sdk_candidates.

(** [GarminCompiler.__init__]: [sdk_path or self._find_sdk()] *)
Definition GarminCompiler_init (sdk_path : option Path) : M GarminCompiler :=
  match sdk_path with
  | Some p => ret {| compiler_sdk_path := Some p |}
  | None =>
      found <- GarminCompiler_find_sdk ;;
      ret {| compiler_sdk_path := found |}
  end.

(** [GarminEmulator._find_sdk]: the path a fresh compiler finds. *)
Definition GarminEmulator_find_sdk : M (option Path) :=
  compiler <- GarminCompiler_init None ;;
  ret (compiler_sdk_path compiler).

(** [GarminEmulator.__init__] *)
Definition GarminEmulator_init (sdk_path : option Path) : M GarminEmulator :=
  match sdk_path with
  | Some p => ret {| emulator_sdk_path := Some p |}
  | None =>
      found <- GarminEmulator_find_sdk ;;
      ret {| emulator_sdk_path := found |}
  end.

End Discovery.

Section Diagnostics.

Context {tc : Toolchain}.

(** [CiqxApp.doctor], for the compiler the container holds and the
    configuration the configuration service hands out. *)
Definition CiqxApp_doctor (compiler : GarminCompiler) (config : CiqxConfig)
  : M bool :=
  emit (LogInfo "Running environment diagnostics...") ;;
  sdk_found <-
    match compiler_sdk_path compiler with
    | Some sdk_path => exists_ sdk_path
    | None => ret false
    end ;;
  match compiler_sdk_path compiler, sdk_found with
  | Some sdk_path, true =>
      emit (LogSuccess ("Connect IQ SDK found at: " ++ sdk_path)) ;;
      let monkeyc := path_join (path_join sdk_path "bin") "monkeyc" in
      monkeyc_exists <- exists_ monkeyc ;;
      if monkeyc_exists then
        emit (LogSuccess "monkeyc compiler found") ;;
        let dev_key := developer_key (signing config) in
        dev_key_exists <- exists_ dev_key ;;
        (if dev_key_exists then
           emit (LogSuccess "Developer key found")
         else
           emit (LogError ("Developer key not found: " ++ dev_key)) ;;
           emit (LogInfo
                   "Generate with: openssl genrsa -out developer_key.pem 4096")) ;;
        emit (LogSuccess "Environment check complete!") ;;
        ret true
      else
        emit (LogError "monkeyc not found") ;;
        ret false
  | _, _ =>
      emit (LogError "Connect IQ SDK not found") ;;
      ret false
  end.

(** The [doctor] command: the verdict of [CiqxApp.doctor] is dropped. *)
Definition doctor (compiler : GarminCompiler) (config : CiqxConfig)
  : M unit :=
  _ <- CiqxApp_doctor compiler config ;;
  ret tt.

(** The trace holds log lines only. *)
Definition is_log (e : Effect) : bool :=
  match e with
  | LogInfo _ | LogError _ | LogDebug _ | LogSuccess _ => true
  | _ => false
  end.

End Diagnostics.

(** *** ServiceContainer *)

Inductive Service :=
| LoggerService
| CompilerService (compiler : GarminCompiler)
| EmulatorService (emulator : GarminEmulator).

(** The [_services] dictionary, in insertion order. *)
Definition ServiceContainer := list (string * Service).

(** [register]: [self._services[name] = service] *)
Fixpoint ServiceContainer_register (self : ServiceContainer) (name : string)
    (service : Service) : ServiceContainer :=
  match self with
  | [] => [(name, service)]
  | (key, value) :: rest =>
      if key =? name then (key, service) :: rest
      else (key, value) :: ServiceContainer_register rest name service
  end.

(** [get]: the service, or the message of the [KeyError] raised. *)
Fixpoint ServiceContainer_get (self : ServiceContainer) (name : string)
  : Service + string :=
  match self with
  | [] => inr ("Service " ++ name ++ " not registered")
  | (key, value) :: rest =>
      if key =? name then inl value else ServiceContainer_get rest name
  end.

(** [_setup_default_services], the compiler and the emulator having
    been constructed. *)
Definition ServiceContainer_default (compiler : GarminCompiler)
    (emulator : GarminEmulator) : ServiceContainer :=
  ServiceContainer_register
    (ServiceContainer_register
       (ServiceContainer_register [] "logger" LoggerService)
       "compiler" (CompilerService compiler))
    "emulator" (EmulatorService emulator).

(** Events each at least half a second after the one before, the first
    one after [last]. *)
Fixpoint well_spaced (last : Q) (events : list (FileSystemEvent * Q))
  : bool :=
  match events with
  | [] => true
  | (_, now) :: rest => Qle_bool (1 # 2) (now - last) && well_spaced now rest
  end.

(** ** Failures of the libraries

    The definitions above take the console, [subprocess] and [str]
    at their best.  The ones below are the same methods with the ways
    in which those libraries fail: what the console raises instead of
    printing (rich rejects markup such as a closing tag that closes
    nothing), what [Path.exists] raises instead of answering (a path
    that may not be examined), what launching a command raises (a
    program that exists but cannot be executed), what decoding its
    captured output raises ([text=True] on output that is not valid
    text), and [str.strip] as Python has it, on all of Unicode. *)
Class Hazards {tc : Toolchain} := {
  console_failure : Effect -> option Exn;
  exists_failure : World -> Path -> option Exn;
  launch_failure : World -> list string -> option Exn;
  decode_failure : World -> list string -> option Exn;
  str_strip : string -> string
}.

Module Hazard.

Section WithHazards.

Context {tc : Toolchain} {hz : Hazards}.

(** A call of the logger or of [console.print]. *)
Definition console (e : Effect) : M unit :=
  match console_failure e with
  | Some x => raise x
  | None => emit e
  end.

(** [Path.exists()] *)
Definition exists_ (p : Path) : M bool :=
  fun s =>
    match exists_failure (world s) p with
    | Some x => (Raise x, s)
    | None => (Ok (path_exists (world s) p), s)
    end.

(** [subprocess.run(cmd, capture_output=True, text=True, check=True)]:
    the launch, then the decoding of what was captured, then the check
    of the exit status. *)
Definition subprocess_run (cmd : list string) : M CompletedProcess :=
  fun s =>
    match launch_failure (world s) cmd with
    | Some x => (Raise x, s)
    | None =>
        let (cp, w') := os_run (world s) cmd in
        let s' :=
          {| world := w'; trace := (trace s ++ [SubprocessRun cmd])%list |} in
        match decode_failure (world s) cmd with
        | Some x => (Raise x, s')
        | None =>
            if (cp_returncode cp =? 0)%Z then (Ok cp, s')
            else (Raise (CalledProcessError (cp_returncode cp)
                                            (cp_stderr cp)), s')
        end
    end.

(** [subprocess.Popen(cmd, stdout=PIPE, stderr=STDOUT, text=True)] *)
Definition subprocess_Popen (cmd : list string) : M Popen :=
  fun s =>
    match launch_failure (world s) cmd with
    | Some x => (Raise x, s)
    | None =>
        let (steps, w') := os_spawn (world s) cmd in
        (Ok {| popen_args := cmd; popen_pending := steps |},
         {| world := w';
            trace := (trace s ++ [SubprocessPopen cmd])%list |})
    end.

Definition GarminCompiler_compile (self : GarminCompiler) : Compiler :=
  fun target profile manifest output dev_key =>
    match compiler_sdk_path self with
    | None =>
        console (LogError "Garmin SDK not found") ;;
        ret false
    | Some sdk_path =>
        let monkeyc := path_join (path_join sdk_path "bin") "monkeyc" in
        monkeyc_exists <- exists_ monkeyc ;;
        if negb monkeyc_exists then
          console (LogError ("monkeyc not found at " ++ monkeyc)) ;;
          ret false
        else
          jungle_exists <- exists_ jungle_file ;;
          let cmd := compile_cmd jungle_exists monkeyc target profile
                                 manifest output dev_key in
          console (LogInfo ("Building " ++ target ++ " ("
                            ++ Profile_value profile ++ ")...")) ;;
          try_except
            (_ <- subprocess_run cmd ;;
             console (LogSuccess ("Built " ++ target ++ " successfully")) ;;
             ret true)
            (fun e =>
               match e with
               | CalledProcessError _ stderr =>
                   Some (console (LogError ("Build failed: " ++ stderr)) ;;
                         ret false)
               | _ => None
               end)
    end.

Definition GarminEmulator_run (self : GarminEmulator) : Emulator :=
  fun app_path device =>
    match emulator_sdk_path self with
    | None => raise (RuntimeError "Garmin SDK not found")
    | Some sdk_path =>
        let monkeydo := path_join (path_join sdk_path "bin") "monkeydo" in
        monkeydo_exists <- exists_ monkeydo ;;
        if negb monkeydo_exists then
          raise (RuntimeError ("monkeydo not found at " ++ monkeydo))
        else
          console (LogInfo ("Running " ++ path_name app_path
                            ++ " on " ++ device)) ;;
          subprocess_Popen [monkeydo; app_path; device]
    end.

(** What a turn of the streaming loop sends to the console. *)
Definition printed (step : ReadStep) : list Effect :=
  match step with
  | Read output _ =>
      if output =? "" then []
      else [ConsolePrint ("[dim][SIM][/dim] " ++ str_strip output)]
  | ReadInterrupt => []
  | ReadRaises _ => []
  end.

Fixpoint stream_output (steps : list ReadStep) : M unit :=
  match steps with
  | [] => hang
  | ReadInterrupt :: _ => raise KeyboardInterrupt
  | ReadRaises e :: _ => raise e
  | Read output poll :: rest =>
      if (output =? "") && is_not_None poll then ret tt
      else
        (if output =? "" then ret tt
         else console (ConsolePrint ("[dim][SIM][/dim] "
                                     ++ str_strip output))) ;;
        stream_output rest
  end.

Definition CiqxApp_run (self : CiqxApp) (target : string)
    (profile : Profile) : M unit :=
  CiqxApp_build self target profile false ;;
  let config := app_config self in
  let out_dir := out_dir (project config) in
  let app_path := output_path out_dir target profile in
  app_exists <- exists_ app_path ;;
  if negb app_exists then
    console (LogError ("App not found: " ++ app_path))
  else
    let emulator := app_emulator self in
    process <- emulator app_path target ;;
    try_except
      (stream_output (popen_pending process))
      (fun e =>
         match e with
         | KeyboardInterrupt =>
             Some (console (LogInfo "Stopping simulator...") ;;
                   emit (ProcessTerminate (popen_args process)))
         | _ => None
         end).

(** [CiqxApp.doctor]; [config_get] is [self.config_service.get()],
    which may read or write the configuration file, and may raise. *)
Definition CiqxApp_doctor (config_get : M CiqxConfig)
    (compiler : GarminCompiler) : M bool :=
  console (LogInfo "Running environment diagnostics...") ;;
  config <- config_get ;;
  sdk_found <-
    match compiler_sdk_path compiler with
    | Some sdk_path => exists_ sdk_path
    | None => ret false
    end ;;
  match compiler_sdk_path compiler, sdk_found with
  | Some sdk_path, true =>
      console (LogSuccess ("Connect IQ SDK found at: " ++ sdk_path)) ;;
      let monkeyc := path_join (path_join sdk_path "bin") "monkeyc" in
      monkeyc_exists <- exists_ monkeyc ;;
      if monkeyc_exists then
        console (LogSuccess "monkeyc compiler found") ;;
        let dev_key := developer_key (signing config) in
        dev_key_exists <- exists_ dev_key ;;
        (if dev_key_exists then
           console (LogSuccess "Developer key found")
         else
           console (LogError ("Developer key not found: " ++ dev_key)) ;;
           console
             (LogInfo
                "Generate with: openssl genrsa -out developer_key.pem 4096")) ;;
        console (LogSuccess "Environment check complete!") ;;
        ret true
      else
        console (LogError "monkeyc not found") ;;
        ret false
  | _, _ =>
      console (LogError "Connect IQ SDK not found") ;;
      ret false
  end.

(** Every line [doctor] may write once the configuration is loaded. *)
Definition doctor_lines (compiler : GarminCompiler) (config : CiqxConfig)
  : list Effect :=
  match compiler_sdk_path compiler with
  | Some sdk_path => [LogSuccess ("Connect IQ SDK found at: " ++ sdk_path)]
  | None => []
  end
  ++ [LogSuccess "monkeyc compiler found";
      LogSuccess "Developer key found";
      LogError ("Developer key not found: "
                ++ developer_key (signing config));
      LogInfo "Generate with: openssl genrsa -out developer_key.pem 4096";
      LogSuccess "Environment check complete!";
      LogError "monkeyc not found";
      LogError "Connect IQ SDK not found"].

(** Every path [doctor] examines. *)
Definition doctor_paths (compiler : GarminCompiler) (config : CiqxConfig)
  : list Path :=
  match compiler_sdk_path compiler with
  | Some sdk_path =>
      [sdk_path; path_join (path_join sdk_path "bin") "monkeyc"]
  | None => []
  end
  ++ [developer_key (signing config)].

End WithHazards.

End Hazard.


(** ** The child process and SIGTERM

    [Popen.terminate()] sends SIGTERM and returns; the program never
    calls [wait()] or [kill()].  Whether the child is still running
    after what the program did depends on how the child answers the
    signal. *)
Inductive Disposition := ExitsOnSigterm | IgnoresSigterm.

Inductive ChildState := NotStarted | Running | Exited.

Definition cmd_eqb (c d : list string) : bool :=
  if list_eq_dec string_dec c d then true else false.

Definition child_step (d : Disposition) (cmd : list string)
    (st : ChildState) (e : Effect) : ChildState :=
  match e with
  | SubprocessPopen c => if cmd_eqb c cmd then Running else st
  | ProcessTerminate c =>
      if cmd_eqb c cmd then
        match st, d with
        | Running, ExitsOnSigterm => Exited
        | _, _ => st
        end
      else st
  | _ => st
  end.

(** The state of the child started with [cmd] after the effects of
    [trace]. *)
Definition child_state (d : Disposition) (cmd : list string)
    (trace : list Effect) : ChildState :=
  fold_left (child_step d cmd) trace NotStarted.

(** ** A stub toolchain

    A concrete outside world for running the model: a set of existing
    files, a compiler that fails for the listed targets (and otherwise
    writes its output file), and a simulator with a scripted output. *)
Module Stub.

Record World := {
  files : list Path;
  failing : list string;
  diagnostic : string;
  simulator : list ReadStep
}.

Definition mem (x : string) (l : list string) : bool :=
  existsb (String.eqb x) l.

Definition path_exists (w : World) (p : Path) : bool := mem p (files w).

Definition add_file (w : World) (p : Path) : World :=
  {| files := if mem p (files w) then files w else p :: files w;
     failing := failing w;
     diagnostic := diagnostic w;
     simulator := simulator w |}.

Definition path_mkdir (w : World) (p : Path) : option World :=
  Some (add_file w p).

Fixpoint arg_after (flag : string) (cmd : list string) : option string :=
  match cmd with
  | f :: ((v :: _) as rest) =>
      if String.eqb f flag then Some v else arg_after flag rest
  | _ => None
  end.

Definition os_run (w : World) (cmd : list string)
  : CompletedProcess * World :=
  match arg_after "-d" cmd, arg_after "-o" cmd with
  | Some target, Some output =>
      if mem target (failing w) then
        ({| cp_returncode := 1; cp_stdout := "";
            cp_stderr := diagnostic w |}, w)
      else
        ({| cp_returncode := 0; cp_stdout := ""; cp_stderr := "" |},
         add_file w output)
  | _, _ =>
      ({| cp_returncode := 2; cp_stdout := ""; cp_stderr := "usage" |}, w)
  end.

Definition os_spawn (w : World) (cmd : list string)
  : list ReadStep * World :=
  (simulator w, w).

(** A matcher that knows literal patterns only. *)
Definition path_match (file_path pattern : string) : bool :=
  String.eqb file_path pattern.

Definition toolchain : Toolchain :=
  Build_Toolchain World path_exists path_mkdir os_run os_spawn path_match.

Definition start (w : World) : State (tc := toolchain) :=
  @mkState toolchain w [].

(** A toolchain under [/sdk]; the compiler fails for [venu2]; the
    simulator prints a line, goes quiet, and then the user interrupts. *)
Definition installed : World :=
  {| files := ["/sdk/bin/monkeyc"; "/sdk/bin/monkeydo"];
     failing := ["venu2"];
     diagnostic := "<stub stderr>";
     simulator := [Read "ready " None; Read "" None; ReadInterrupt] |}.

Definition with_diagnostic (text : string) : World :=
  {| files := files installed;
     failing := failing installed;
     diagnostic := text;
     simulator := simulator installed |}.

(** No toolchain, but an artifact left by an earlier build. *)
Definition stale : World :=
  {| files := ["build/fenix7-debug.prg"];
     failing := [];
     diagnostic := "";
     simulator := [] |}.

Definition garmin_compiler : GarminCompiler :=
  {| compiler_sdk_path := Some "/sdk" |}.

Definition garmin_emulator : GarminEmulator :=
  {| emulator_sdk_path := Some "/sdk" |}.

Definition ciqx : CiqxApp (tc := toolchain) :=
  {| app_compiler := GarminCompiler_compile garmin_compiler;
     app_emulator := GarminEmulator_run garmin_emulator;
     app_config := default_config |}.

Definition lost_emulator : GarminEmulator :=
  {| emulator_sdk_path := None |}.

Definition ciqx_without_sdk : CiqxApp (tc := toolchain) :=
  {| app_compiler := GarminCompiler_compile {| compiler_sdk_path := None |};
     app_emulator := GarminEmulator_run lost_emulator;
     app_config := default_config |}.

(** A change of [manifest.xml]. *)
Definition manifest_changed : FileSystemEvent :=
  {| is_directory := false; src_path := "manifest.xml" |}.

(** A change of a file no pattern names. *)
Definition readme_changed : FileSystemEvent :=
  {| is_directory := false; src_path := "README.md" |}.

(** A fresh watcher over the patterns of [watch]. *)
Definition watcher : ProjectWatcher := ProjectWatcher_init watch_patterns.

(** Three changes 0.3 s apart. *)
Definition dense_burst : list (FileSystemEvent * Q) :=
  [(manifest_changed, 1000 # 1);
   (manifest_changed, 10003 # 10);
   (manifest_changed, 10006 # 10)]%Q.

(** *** Directories of the stub world *)

Fixpoint strip_prefix (pre s : string) : option string :=
  match pre, s with
  | EmptyString, _ => Some s
  | String a pre', String b s' =>
      if Ascii.eqb a b then strip_prefix pre' s' else None
  | String _ _, EmptyString => None
  end.

(** [f] is an entry of the directory [p]. *)
Definition child_of (p f : Path) : bool :=
  match strip_prefix (p ++ "/") f with
  | Some name => negb (name =? "") && negb (contains "/" name)
  | None => false
  end.

(** A path is a directory when something is inside it. *)
Definition is_dir (w : World) (p : Path) : bool :=
  existsb (child_of p) (files w).

Definition iterdir (w : World) (p : Path) : option (list Path) :=
  if is_dir w p then Some (filter (child_of p) (files w)) else None.

Definition directories : Directories (tc := toolchain) :=
  @Build_Directories toolchain "/home/dev" iterdir is_dir.

(** A toolchain whose file system refuses to create directories. *)
Definition readonly : Toolchain :=
  Build_Toolchain World path_exists (fun _ _ => None) os_run os_spawn
                  path_match.

(** The toolchain root itself is on disk too; no developer key. *)
Definition complete : World :=
  {| files := ["/sdk"; "/sdk/bin"; "/sdk/bin/monkeyc"; "/sdk/bin/monkeydo"];
     failing := [];
     diagnostic := "";
     simulator := [] |}.

(** The compiler fails for [venu2], whose artifact from an earlier
    build is still there; the simulator prints two lines, with a pause
    between them, and exits with status 0. *)
Definition leftover : World :=
  {| files := ["/sdk/bin/monkeyc"; "/sdk/bin/monkeydo";
               "build/venu2-debug.prg"];
     failing := ["venu2"];
     diagnostic := "<stub stderr>";
     simulator := [Read "starting " None; Read "" None;
                   Read " done" None; Read "" (Some 0%Z)] |}.

(** A versioned SDK under the second conventional location. *)
Definition versioned : World :=
  {| files :=
       ["/home/dev/Library/Application Support/Garmin/ConnectIQ/Sdks";
        "/home/dev/Library/Application Support/Garmin/ConnectIQ/Sdks/connectiq-sdk-mac-7.1.0";
        "/home/dev/Library/Application Support/Garmin/ConnectIQ/Sdks/connectiq-sdk-mac-7.1.0/bin"];
     failing := [];
     diagnostic := "";
     simulator := [] |}.

(** The first conventional location is a plain file. *)
Definition misplaced : World :=
  {| files := ["/home/dev/.Garmin/ConnectIQ/SDK"];
     failing := [];
     diagnostic := "";
     simulator := [] |}.

Definition ciqx_without_targets : CiqxApp (tc := toolchain) :=
  {| app_compiler := GarminCompiler_compile garmin_compiler;
     app_emulator := GarminEmulator_run garmin_emulator;
     app_config :=
       {| project := project default_config;
          devices := {| default := "fenix7"; targets := [] |};
          signing := signing default_config |} |}.

(** Three changes of [manifest.xml], half a second apart. *)
Definition spaced_changes : list (FileSystemEvent * Q) :=
  [(manifest_changed, 1000 # 1);
   (manifest_changed, 10005 # 10);
   (manifest_changed, 1001 # 1)]%Q.

(** A change of a directory, then two changes 0.2 s apart. *)
Definition close_changes : list (FileSystemEvent * Q) :=
  [({| is_directory := true; src_path := "source" |}, 1000 # 1);
   (readme_changed, 10001 # 10);
   (manifest_changed, 10003 # 10)]%Q.

(** *** Library failures in the stub world *)

Definition effect_text (e : Effect) : string :=
  match e with
  | LogInfo m | LogError m | LogDebug m | LogSuccess m | ConsolePrint m => m
  | _ => ""
  end.

(** A console that rejects the closing tag [/oops], which closes
    nothing. *)
Definition rejects (e : Effect) : option Exn :=
  if contains "[/oops]" (effect_text e) then
    Some (MarkupError "closing tag '[/oops]' doesn't match any open tag")
  else None.

(** The programs in [blocked] exist but cannot be executed; with
    [garbled] set, captured output does not decode. *)
Definition hazards (blocked : list Path) (garbled : bool)
  : Hazards (tc := toolchain) :=
  @Build_Hazards toolchain rejects
    (fun _ _ => None)
    (fun _ cmd => if mem (hd "" cmd) blocked then Some OSError else None)
    (fun _ _ => if garbled then Some UnicodeDecodeError else None)
    strip.

Definition calm : Hazards (tc := toolchain) := hazards [] false.

(** The configuration service with the default configuration loaded. *)
Definition config_loaded : M (tc := toolchain) CiqxConfig :=
  ret default_config.

(** The simulator prints a line, then one the console rejects. *)
Definition noisy : World :=
  {| files := ["/sdk/bin/monkeyc"; "/sdk/bin/monkeydo"];
     failing := [];
     diagnostic := "";
     simulator := [Read "booting " None; Read "oops [/oops] " None;
                   Read "" (Some 0%Z)] |}.

End Stub.

(** * Properties *)

Section Properties.

Context {tc : Toolchain}.

(** ** The monad *)

Lemma bind_Ok {A B} (c : M A) (k : A -> M B) s a s' :
  c s = (Ok a, s') -> bind c k s = k a s'.
Proof. intros E. unfold bind. rewrite E. reflexivity. Qed.

Lemma bind_Raise {A B} (c : M A) (k : A -> M B) s e s' :
  c s = (Raise e, s') -> bind c k s = (Raise e, s').
Proof. intros E. unfold bind. rewrite E. reflexivity. Qed.

Lemma bind_emit {B} (e : Effect) (k : unit -> M B) s :
  bind (emit e) k s
  = k tt {| world := world s; trace := (trace s ++ [e])%list |}.
Proof. reflexivity. Qed.

Lemma bind_exists {B} (p : Path) (k : bool -> M B) s :
  bind (exists_ p) k s = k (path_exists (world s) p) s.
Proof. reflexivity. Qed.

Lemma try_except_Ok {A} (c : M A) h s a s' :
  c s = (Ok a, s') -> try_except c h s = (Ok a, s').
Proof. intros E. unfold try_except. rewrite E. reflexivity. Qed.

Lemma try_except_caught {A} (c : M A) h s e s' k :
  c s = (Raise e, s') -> h e = Some k -> try_except c h s = k s'.
Proof. intros E H. unfold try_except. rewrite E, H. reflexivity. Qed.

(** ** GarminCompiler.compile *)

(** C4. Whenever [compile] gets as far as running the external compiler,
    the command it runs is fixed by the request: with [monkey.jungle] on
    disk the descriptor after [-f] is that file and the manifest path is
    not among the arguments, otherwise the manifest follows [-f]; the
    command ends with [-g] for the debug profile and with [-r] for the
    release profile, and with nothing else. *)
Theorem compile_argument_vector :
  forall (self : GarminCompiler) (sdk : Path) (target : string)
         (profile : Profile) (manifest output dev_key : Path) (s : State),
    compiler_sdk_path self = Some sdk ->
    path_exists (world s) (path_join (path_join sdk "bin") "monkeyc") = true ->
    let monkeyc := path_join (path_join sdk "bin") "monkeyc" in
    let flag := match profile with DEBUG => "-g" | RELEASE => "-r" end in
    let cmd :=
      if path_exists (world s) "monkey.jungle" then
        [monkeyc; "-d"; target; "-f"; "monkey.jungle";
         "-o"; output; "-y"; dev_key; flag]
      else
        [monkeyc; "-f"; manifest; "-o"; output;
         "-d"; target; "-y"; dev_key; flag] in
    exists verdict : Effect,
      trace (snd (GarminCompiler_compile self target profile manifest
                                         output dev_key s))
      = (trace s ++ [LogInfo ("Building " ++ target ++ " ("
                              ++ Profile_value profile ++ ")...");
                     SubprocessRun cmd; verdict])%list.
Proof.
  intros self sdk target profile manifest output dev_key s Hsdk Hmc.
  cbv zeta. unfold GarminCompiler_compile. rewrite Hsdk.
  rewrite bind_exists, Hmc. cbn [negb]. rewrite bind_exists.
  rewrite bind_emit. unfold jungle_file, compile_cmd.
  destruct (path_exists (world s) "monkey.jungle");
    destruct profile; cbn [Profile_eqb app];
    unfold try_except, bind, subprocess_run; cbn [world trace];
    match goal with
    | |- context [os_run ?w ?c] => destruct (os_run w c) as [cp w']
    end;
    destruct (cp_returncode cp =? 0)%Z; cbn;
    eexists; rewrite <- !app_assoc; reflexivity.
Qed.

(** [compile] always hands a verdict back: the one exception it can
    meet is caught. *)
Lemma GarminCompiler_compile_returns :
  forall (self : GarminCompiler) target profile manifest output dev_key s,
  exists (b : bool) (s' : State),
    GarminCompiler_compile self target profile manifest output dev_key s
    = (Ok b, s').
Proof.
  intros self target profile manifest output dev_key s.
  unfold GarminCompiler_compile.
  destruct (compiler_sdk_path self) as [sdk|];
    [|do 2 eexists; reflexivity].
  rewrite bind_exists.
  destruct (path_exists (world s) _); cbn [negb];
    [|do 2 eexists; reflexivity].
  rewrite bind_exists, bind_emit.
  unfold try_except, bind, subprocess_run. cbn [world trace].
  match goal with
  | |- context [os_run ?w ?c] => destruct (os_run w c) as [cp w']
  end.
  destruct (cp_returncode cp =? 0)%Z; do 2 eexists; reflexivity.
Qed.

(** ** CiqxApp.build *)

Section Sweep.

Variable compiler : Compiler.
Variable profile : Profile.
Variables manifest out_dir dev_key : Path.

Lemma succeeded_count_cons target ok results :
  succeeded_count ({| br_target := target; br_succeeded := ok |} :: results)
  = ((if ok then 1 else 0) + succeeded_count results)%nat.
Proof. unfold succeeded_count. cbn. destruct ok; reflexivity. Qed.

(** The counting loop of the code is the sweep of the specification
    followed by counting the successes. *)
Lemma build_loop_buildAll :
  forall (devs : list string) (success_count : nat) (s : State),
    build_loop compiler profile manifest out_dir dev_key devs
               success_count s
    = bind (buildAll compiler profile manifest out_dir dev_key devs)
           (fun results =>
              ret (success_count + succeeded_count results)%nat) s.
Proof.
  induction devs as [|device rest IH]; intros success_count s.
  - cbn. unfold ret, succeeded_count. cbn. rewrite Nat.add_0_r. reflexivity.
  - cbn [build_loop buildAll]. unfold bind, emit, ret in *. cbn.
    destruct (compiler device profile manifest _ dev_key _)
      as [[ok| e |] s2]; try reflexivity.
    rewrite IH.
    destruct (buildAll compiler profile manifest out_dir dev_key rest _)
      as [[results| e |] s4]; try reflexivity.
    rewrite succeeded_count_cons.
    destruct ok; do 2 f_equal; lia.
Qed.

(** With a compiler that answers, the sweep visits every target and
    keeps their order. *)
Lemma buildAll_returns :
  returns compiler ->
  forall (T : list string) (s : State),
  exists (results : list BuildResult) (s' : State),
    buildAll compiler profile manifest out_dir dev_key T s
    = (Ok results, s')
    /\ map br_target results = T.
Proof.
  intros Hc. induction T as [|target rest IH]; intros s.
  - exists [], s. split; reflexivity.
  - cbn [buildAll]. rewrite bind_emit.
    set (s1 := {| world := world s; trace := _ |}).
    destruct (Hc target profile manifest
                 (output_path out_dir target profile) dev_key s1)
      as (ok & s2 & E).
    rewrite (bind_Ok _ _ _ _ _ E), bind_emit.
    set (s3 := {| world := world s2; trace := _ |}).
    destruct (IH s3) as (results & s4 & E' & Hmap).
    rewrite (bind_Ok _ _ _ _ _ E').
    eexists _, s4. split; [reflexivity|]. cbn. now rewrite Hmap.
Qed.

End Sweep.

(** What [build] does with [build_all] set, once the output directory
    is there and the compiler answers every call. *)
Lemma CiqxApp_build_all_sweep :
  forall (self : CiqxApp) (target : string) (profile : Profile)
         (s : State) (w' : World),
    returns (app_compiler self) ->
    path_mkdir (world s) (out_dir (project (app_config self))) = Some w' ->
    let config := app_config self in
    let T := targets (devices config) in
    let s0 := {| world := w';
                 trace := (trace s
                           ++ [Mkdir (out_dir (project config));
                               ProgressAddTask "Building..."
                                 (List.length T)])%list |} in
    exists (results : list BuildResult) (s1 : State),
      buildAll (app_compiler self) profile (manifest (project config))
               (out_dir (project config)) (developer_key (signing config))
               T s0 = (Ok results, s1)
      /\ map br_target results = T
      /\ CiqxApp_build self target profile true s
         = (Ok tt,
            {| world := world s1;
               trace := (trace s1
                         ++ [sweep_report (succeeded_count results)
                                          (List.length T)])%list |}).
Proof.
  intros self target profile s w' Hc Hmk config T s0.
  destruct (buildAll_returns (app_compiler self) profile
              (manifest (project config)) (out_dir (project config))
              (developer_key (signing config)) Hc T s0)
    as (results & s1 & E & Hmap).
  exists results, s1. split; [exact E|]. split; [exact Hmap|].
  unfold s0, T, config in *. clear s0 T config.
  unfold CiqxApp_build. unfold bind at 1. unfold mkdir_exist_ok.
  rewrite Hmk. rewrite bind_emit. cbn [world trace].
  rewrite <- app_assoc. cbn [app].
  unfold bind at 1. rewrite build_loop_buildAll.
  rewrite (bind_Ok _ _ _ _ _ E). unfold ret. cbn [Nat.add].
  unfold sweep_report.
  destruct (succeeded_count results =? _)%nat; reflexivity.
Qed.

(** C1. A build sweep ([build] with [--all]) over the configured
    targets [T], with a compiler that answers every call: the compiler
    is called once per target, one call after the other in the order of
    [T] (this is [buildAll], whose results name the targets of [T] in
    order), a [False] from one call does not stop the sweep, and the
    count the sweep reports is the number of calls that returned
    [True]. *)
Theorem build_all_counts_successes :
  forall (self : CiqxApp) (target : string) (profile : Profile)
         (s : State) (w' : World),
    returns (app_compiler self) ->
    path_mkdir (world s) (out_dir (project (app_config self))) = Some w' ->
    let config := app_config self in
    let T := targets (devices config) in
    let s0 := {| world := w';
                 trace := (trace s
                           ++ [Mkdir (out_dir (project config));
                               ProgressAddTask "Building..."
                                 (List.length T)])%list |} in
    exists (results : list BuildResult) (s1 : State),
      buildAll (app_compiler self) profile (manifest (project config))
               (out_dir (project config)) (developer_key (signing config))
               T s0 = (Ok results, s1)
      /\ map br_target results = T
      /\ CiqxApp_build self target profile true s
         = (Ok tt,
            {| world := world s1;
               trace := (trace s1
                         ++ [sweep_report
                               (List.length (filter br_succeeded results))
                               (List.length T)])%list |}).
Proof.
  intros self target profile s w' Hc Hmk.
  exact (CiqxApp_build_all_sweep self target profile s w' Hc Hmk).
Qed.

(** C6, as the code has it. A sweep run through the [build --all]
    command, when the output directory can be created and the compiler
    answers every call, returns normally and ends with exit status 0
    whatever the answers were, failed targets or not. *)
Theorem build_all_exit_status_zero :
  forall (ciqx : CiqxApp) (target : string) (profile : Profile)
         (s : State) (w' : World),
    returns (app_compiler ciqx) ->
    path_mkdir (world s) (out_dir (project (app_config ciqx))) = Some w' ->
    exit_status (build ciqx target profile true s) = Some 0%Z.
Proof.
  intros ciqx target profile s w' Hc Hmk.
  destruct (CiqxApp_build_all_sweep ciqx target profile s w' Hc Hmk)
    as (results & s1 & _ & _ & E).
  unfold build, exit_status. rewrite E. reflexivity.
Qed.

(** ** CiqxApp.run *)


(** C8, as the code has it. When the toolchain root is unknown or
    [monkeydo] is not under it, [GarminEmulator.run] raises
    [RuntimeError] to its caller, spawning nothing and returning no
    process handle; [CiqxApp.run] does not handle that exception, which
    therefore ends the run operation as well. *)
Theorem emulator_launch_failure_is_raised :
  forall (self : GarminEmulator) (compiler : Compiler) (config : CiqxConfig)
         (target : string) (profile : Profile) (s0 s : State),
    let ciqx := {| app_compiler := compiler;
                   app_emulator := GarminEmulator_run self;
                   app_config := config |} in
    let app_path := output_path (out_dir (project config)) target profile in
    launcher_missing self (world s) = true ->
    CiqxApp_build ciqx target profile false s0 = (Ok tt, s) ->
    path_exists (world s) app_path = true ->
    exists msg : string,
      (forall (app_path : Path) (device : string),
          GarminEmulator_run self app_path device s
          = (Raise (RuntimeError msg), s))
      /\ CiqxApp_run ciqx target profile s0 = (Raise (RuntimeError msg), s).
Proof.
  intros self compiler config target profile s0 s ciqx app_path Hm Hb Hex.
  assert (exists msg, forall p d,
             GarminEmulator_run self p d s = (Raise (RuntimeError msg), s))
    as (msg & Hraise).
  { unfold launcher_missing in Hm. unfold GarminEmulator_run.
    destruct (emulator_sdk_path self) as [sdk|].
    - eexists. intros p d. rewrite bind_exists.
      apply negb_true_iff in Hm. rewrite Hm. reflexivity.
    - eexists. intros p d. reflexivity. }
  exists msg. split; [exact Hraise|].
  unfold CiqxApp_run. rewrite (bind_Ok _ _ _ _ _ Hb).
  rewrite bind_exists. cbn [app_config app_emulator ciqx]. fold app_path.
  rewrite Hex. cbn [negb].
  apply bind_Raise. apply Hraise.
Qed.

(** The streaming loop, interrupted after turns that all keep it
    going: what was read has been printed, and the interrupt is in
    flight. *)
Lemma stream_output_interrupted :
  forall (pre rest : list ReadStep) (s : State),
    forallb keeps_streaming pre = true ->
    stream_output (pre ++ ReadInterrupt :: rest) s
    = (Raise KeyboardInterrupt,
       {| world := world s;
          trace := (trace s ++ flat_map printed pre)%list |}).
Proof.
  induction pre as [|step pre IH]; intros rest s Hpre.
  - cbn. rewrite app_nil_r. destruct s; reflexivity.
  - cbn [forallb] in Hpre. apply andb_true_iff in Hpre as [Hstep Hpre].
    destruct step as [output poll| |e]; try discriminate.
    cbn [keeps_streaming] in Hstep. apply negb_true_iff in Hstep.
    cbn [app stream_output flat_map printed]. rewrite Hstep.
    destruct (output =? "").
    + unfold bind at 1. unfold ret at 1. rewrite IH by assumption.
      reflexivity.
    + rewrite bind_emit, IH by assumption. cbn [world trace].
      rewrite <- app_assoc. reflexivity.
Qed.

(** C3, as the code has it. When the interrupt arrives while [run] is
    streaming the simulator's output, [run] asks the child process to
    terminate ([process.terminate()]) and then returns normally: the
    request is the last thing it does. *)
Theorem run_interrupt_terminates_process :
  forall (compiler : Compiler) (emulator : Emulator) (config : CiqxConfig)
         (target : string) (profile : Profile) (s s1 s2 : State)
         (process : Popen) (pre rest : list ReadStep),
    let self := {| app_compiler := compiler; app_emulator := emulator;
                   app_config := config |} in
    let app_path := output_path (out_dir (project config)) target profile in
    CiqxApp_build self target profile false s = (Ok tt, s1) ->
    path_exists (world s1) app_path = true ->
    emulator app_path target s1 = (Ok process, s2) ->
    popen_pending process = (pre ++ ReadInterrupt :: rest)%list ->
    forallb keeps_streaming pre = true ->
    CiqxApp_run self target profile s
    = (Ok tt,
       {| world := world s2;
          trace := (trace s2 ++ flat_map printed pre
                    ++ [LogInfo "Stopping simulator...";
                        ProcessTerminate (popen_args process)])%list |}).
Proof.
  intros compiler emulator config target profile s s1 s2 process pre rest
         self app_path Hb Hex Hrun Hpend Hpre.
  unfold CiqxApp_run. rewrite (bind_Ok _ _ _ _ _ Hb).
  rewrite bind_exists. cbn [app_config app_emulator self]. fold app_path.
  rewrite Hex. cbn [negb]. rewrite (bind_Ok _ _ _ _ _ Hrun).
  rewrite Hpend.
  erewrite try_except_caught;
    [| apply stream_output_interrupted; assumption | reflexivity].
  rewrite bind_emit. unfold emit. cbn [world trace].
  rewrite <- !app_assoc. reflexivity.
Qed.

(** ** CiqxApp.watch *)

Lemma idle_loop_interrupted :
  forall (n : nat) (rest : list IdleStep) (s : State),
    idle_loop (repeat Slept n ++ IdleInterrupt :: rest) s
    = (Raise KeyboardInterrupt,
       {| world := world s;
          trace := (trace s ++ repeat (Sleep 1) n)%list |}).
Proof.
  induction n as [|n IH]; intros rest s.
  - cbn. rewrite app_nil_r. destruct s; reflexivity.
  - cbn [repeat app idle_loop]. rewrite bind_emit, IH. cbn [world trace].
    rewrite <- app_assoc. reflexivity.
Qed.

(** C9. When the interrupt arrives while [watch] sleeps in its idle
    loop (the first build-and-run having returned), [watch] stops the
    observer, then joins it, that is waits until its thread has ended,
    and returns normally: the interrupt does not leave [watch]. *)
Theorem watch_interrupt_stops_observer :
  forall (self : CiqxApp) (target : string) (profile : Profile)
         (s s1 : State) (n : nat) (rest : list IdleStep),
    let s0 :=
      {| world := world s;
         trace := (trace s
                   ++ [LogInfo ("Starting watch mode for " ++ target ++ " ("
                                ++ Profile_value profile ++ ")");
                       LogInfo "Press Ctrl+C to stop";
                       ObserverSchedule watch_patterns "." true;
                       ObserverStart])%list |} in
    CiqxApp_run self target profile s0 = (Ok tt, s1) ->
    CiqxApp_watch self target profile
                  (repeat Slept n ++ IdleInterrupt :: rest)%list s
    = (Ok tt,
       {| world := world s1;
          trace := (trace s1 ++ repeat (Sleep 1) n
                    ++ [ObserverStop; LogInfo "Watch mode stopped";
                        ObserverJoin])%list |}).
Proof.
  intros self target profile s s1 n rest s0 Hrun.
  unfold CiqxApp_watch. rewrite !bind_emit. cbn [world trace].
  rewrite <- !app_assoc. cbn [app]. fold s0.
  unfold bind at 1.
  erewrite try_except_caught;
    [| rewrite (bind_Ok _ _ _ _ _ Hrun); apply idle_loop_interrupted
     | reflexivity].
  rewrite bind_emit. unfold emit. cbn [world trace].
  rewrite <- !app_assoc. reflexivity.
Qed.

(** ** ProjectWatcher.on_modified *)

Lemma Qltb_true (x y : Q) : Qltb x y = true <-> (x < y)%Q.
Proof.
  unfold Qltb. rewrite negb_true_iff. split.
  - intros H. apply Qnot_le_lt. intros Hle.
    apply Qle_bool_iff in Hle. congruence.
  - intros H. destruct (Qle_bool y x) eqn:E; [|reflexivity].
    apply Qle_bool_iff in E. exfalso. exact (Qlt_not_le _ _ H E).
Qed.

Lemma Qltb_false (x y : Q) : Qltb x y = false <-> (y <= x)%Q.
Proof.
  unfold Qltb. rewrite negb_false_iff. apply Qle_bool_iff.
Qed.

Section HandlerProperties.

Context {S : Type}.
Variable callback : S -> S.

(** The pattern loop calls the callback once if some pattern matches
    and not at all otherwise. *)
Lemma match_patterns_existsb (file_path : string) (pats : list string)
    (s : S) :
  match_patterns callback file_path pats s
  = if existsb (path_match file_path) pats then callback s else s.
Proof.
  induction pats as [|pattern rest IH]; cbn; [reflexivity|].
  destruct (path_match file_path pattern); [reflexivity|exact IH].
Qed.

(** Events that all fall inside the window opened by the last accepted
    event change nothing and call nothing. *)
Lemma dispatch_inside_window :
  forall (events : list (FileSystemEvent * Q)) (self : ProjectWatcher)
         (s : S),
    Forall (fun en => (snd en - last_modified self < 1 # 2)%Q) events ->
    dispatch callback self events s = (self, s).
Proof.
  induction events as [|[event now] rest IH]; intros self s Hall.
  - reflexivity.
  - inversion Hall as [|? ? Hnow Hrest]; subst. cbn [snd] in Hnow.
    cbn [dispatch]. unfold on_modified.
    destruct (is_directory event); [apply IH; exact Hrest|].
    apply Qltb_true in Hnow. rewrite Hnow. apply IH; exact Hrest.
Qed.

End HandlerProperties.

(** C10. A non-directory event that passes the debounce test has its
    time stored as the last-event time before its path is looked at,
    so whether or not that path matches a pattern; hence no event
    arriving less than 0.5 s after it, matching or not, calls the
    callback or changes the watcher. *)
Theorem accepted_event_silences_window :
  forall (S : Type) (callback : S -> S) (self : ProjectWatcher)
         (event : FileSystemEvent) (now : Q) (s : S)
         (later : list (FileSystemEvent * Q)),
    is_directory event = false ->
    (1 # 2 <= now - last_modified self)%Q ->
    Forall (fun en => (snd en - now < 1 # 2)%Q) later ->
    let r := on_modified callback self event now s in
    last_modified (fst r) = now
    /\ (existsb (path_match (src_path event)) (patterns self) = false ->
        snd r = s)
    /\ dispatch callback (fst r) later (snd r) = r.
Proof.
  intros S callback self event now s later Hdir Hacc Hlater r.
  subst r. unfold on_modified. rewrite Hdir.
  apply Qltb_false in Hacc. rewrite Hacc.
  cbn [fst snd last_modified patterns].
  split; [reflexivity|]. split.
  - intros Hno. rewrite match_patterns_existsb, Hno. reflexivity.
  - apply dispatch_inside_window. exact Hlater.
Qed.

(** C2, as the code has it. A burst whose first event is eligible and
    passes the debounce test, and whose other events all arrive less
    than 0.5 s after that first one: the callback is called exactly
    once, while the first event is being handled, and the window stays
    anchored at the first event. *)
Theorem burst_triggers_once_at_first_event :
  forall (S : Type) (callback : S -> S) (self : ProjectWatcher)
         (event : FileSystemEvent) (now : Q) (s : S)
         (rest : list (FileSystemEvent * Q)),
    eligible self event = true ->
    (1 # 2 <= now - last_modified self)%Q ->
    Forall (fun en => (snd en - now < 1 # 2)%Q) rest ->
    let self' := {| patterns := patterns self; last_modified := now |} in
    on_modified callback self event now s = (self', callback s)
    /\ dispatch callback self ((event, now) :: rest) s = (self', callback s).
Proof.
  intros S callback self event now s rest Hel Hacc Hrest self'.
  unfold eligible in Hel. apply andb_true_iff in Hel as [Hdir Hmatch].
  apply negb_true_iff in Hdir. apply Qltb_false in Hacc.
  assert (on_modified callback self event now s = (self', callback s)) as E.
  { unfold on_modified. rewrite Hdir, Hacc.
    cbn [patterns]. rewrite match_patterns_existsb, Hmatch. reflexivity. }
  split; [exact E|].
  cbn [dispatch]. rewrite E.
  apply dispatch_inside_window. exact Hrest.
Qed.

(** ** Further properties of GarminCompiler.compile *)

(** X2. Without a toolchain root, or without [monkeyc] under it,
    [compile] returns [False] after one error line: no command is run
    and the outside world is left as it was. *)
Theorem compile_without_toolchain_runs_nothing :
  forall (self : GarminCompiler) (target : string) (profile : Profile)
         (manifest output dev_key : Path) (s : State),
    match compiler_sdk_path self with
    | None => True
    | Some sdk =>
        path_exists (world s) (path_join (path_join sdk "bin") "monkeyc")
        = false
    end ->
    exists message : string,
      GarminCompiler_compile self target profile manifest output dev_key s
      = (Ok false,
         {| world := world s;
            trace := (trace s ++ [LogError message])%list |}).
Proof.
  intros self target profile manifest output dev_key s Hmissing.
  unfold GarminCompiler_compile.
  destruct (compiler_sdk_path self) as [sdk|].
  - rewrite bind_exists, Hmissing. eexists. reflexivity.
  - eexists. reflexivity.
Qed.

(** ** CiqxApp.doctor *)

(** X4. With the toolchain in place and the developer key missing,
    [doctor] logs the missing key and how to generate one, and still
    closes with the success line and returns [True]. *)
Theorem doctor_passes_without_developer_key :
  forall (compiler : GarminCompiler) (config : CiqxConfig) (sdk : Path)
         (s : State),
    compiler_sdk_path compiler = Some sdk ->
    path_exists (world s) sdk = true ->
    path_exists (world s) (path_join (path_join sdk "bin") "monkeyc") = true ->
    path_exists (world s) (developer_key (signing config)) = false ->
    CiqxApp_doctor compiler config s
    = (Ok true,
       {| world := world s;
          trace :=
            (trace s
             ++ [LogInfo "Running environment diagnostics...";
                 LogSuccess ("Connect IQ SDK found at: " ++ sdk);
                 LogSuccess "monkeyc compiler found";
                 LogError ("Developer key not found: "
                           ++ developer_key (signing config));
                 LogInfo
                   "Generate with: openssl genrsa -out developer_key.pem 4096";
                 LogSuccess "Environment check complete!"])%list |}).
Proof.
  intros compiler config sdk s Hsdk Hroot Hmc Hkey.
  unfold CiqxApp_doctor. rewrite bind_emit, Hsdk, bind_exists.
  cbn [world trace]. rewrite Hroot.
  rewrite bind_emit, bind_exists. cbn [world trace]. rewrite Hmc.
  rewrite bind_emit, bind_exists. cbn [world trace]. rewrite Hkey.
  cbn. rewrite <- !app_assoc. reflexivity.
Qed.

(** ** Further properties of CiqxApp.build *)

Lemma filter_length_forallb {A} (f : A -> bool) (l : list A) :
  (List.length (filter f l) =? List.length l)%nat = forallb f l.
Proof.
  induction l as [|x l IH]; [reflexivity|].
  cbn [filter forallb List.length]. destruct (f x); cbn [andb].
  - cbn [List.length Nat.eqb]. exact IH.
  - apply Nat.eqb_neq.
    pose proof (filter_length_le f l). lia.
Qed.

(** X6. A sweep over no targets: [build] with [--all] calls no compiler,
    whatever the compiler is, and reports that all 0 targets were
    built. *)
Theorem build_all_without_targets :
  forall (self : CiqxApp) (target : string) (profile : Profile)
         (s : State) (w' : World),
    targets (devices (app_config self)) = [] ->
    path_mkdir (world s) (out_dir (project (app_config self))) = Some w' ->
    CiqxApp_build self target profile true s
    = (Ok tt,
       {| world := w';
          trace := (trace s
                    ++ [Mkdir (out_dir (project (app_config self)));
                        ProgressAddTask "Building..." 0;
                        LogSuccess "Built all 0 targets successfully"])%list |}).
Proof.
  intros self target profile s w' HT Hmk.
  unfold CiqxApp_build. unfold bind at 1. unfold mkdir_exist_ok.
  rewrite Hmk, HT. cbn. unfold emit. cbn [world trace].
  rewrite <- !app_assoc. reflexivity.
Qed.

(** X7. The closing line of a sweep is the success line exactly when
    every compile returned [True]; otherwise it is the error line, with
    a count below the number of targets. *)
Theorem sweep_succeeds_iff_all_targets_do :
  forall (self : CiqxApp) (target : string) (profile : Profile)
         (s : State) (w' : World),
    returns (app_compiler self) ->
    path_mkdir (world s) (out_dir (project (app_config self))) = Some w' ->
    let config := app_config self in
    let T := targets (devices config) in
    let s0 := {| world := w';
                 trace := (trace s
                           ++ [Mkdir (out_dir (project config));
                               ProgressAddTask "Building..."
                                 (List.length T)])%list |} in
    exists (results : list BuildResult) (s1 : State) (line : Effect),
      buildAll (app_compiler self) profile (manifest (project config))
               (out_dir (project config)) (developer_key (signing config))
               T s0 = (Ok results, s1)
      /\ CiqxApp_build self target profile true s
         = (Ok tt,
            {| world := world s1; trace := (trace s1 ++ [line])%list |})
      /\ (forallb br_succeeded results = true ->
          line = LogSuccess ("Built all " ++ str_of_nat (List.length T)
                             ++ " targets successfully"))
      /\ (forallb br_succeeded results = false ->
          exists k : nat,
            (k < List.length T)%nat
            /\ line = LogError ("Built " ++ str_of_nat k ++ "/"
                                ++ str_of_nat (List.length T)
                                ++ " targets")).
Proof.
  intros self target profile s w' Hc Hmk config T s0.
  destruct (CiqxApp_build_all_sweep self target profile s w' Hc Hmk)
    as (results & s1 & E & Hmap & Hb).
  fold config in E, Hmap, Hb. fold T in E, Hmap, Hb. fold s0 in E.
  exists results, s1, (sweep_report (succeeded_count results) (List.length T)).
  split; [exact E|]. split; [exact Hb|].
  assert (List.length results = List.length T) as Hlen
      by (rewrite <- Hmap; symmetry; apply length_map).
  unfold sweep_report, succeeded_count. rewrite <- Hlen.
  rewrite filter_length_forallb. split; intros Hall; rewrite Hall.
  - rewrite <- (proj1 (Nat.eqb_eq _ _)
                  (eq_trans (filter_length_forallb br_succeeded results) Hall))
      at 1.
    reflexivity.
  - exists (List.length (filter br_succeeded results)). split; [|reflexivity].
    pose proof (filter_length_le br_succeeded results) as Hle.
    pose proof (filter_length_forallb br_succeeded results) as Hne.
    rewrite Hall in Hne. apply Nat.eqb_neq in Hne. lia.
Qed.

(** X8. When the output directory cannot be created the [OSError]
    leaves [build] at once: nothing has been compiled, whatever the
    compiler and the mode. *)
Theorem build_stops_when_mkdir_fails :
  forall (self : CiqxApp) (target : string) (profile : Profile)
         (build_all : bool) (s : State),
    path_mkdir (world s) (out_dir (project (app_config self))) = None ->
    CiqxApp_build self target profile build_all s = (Raise OSError, s).
Proof.
  intros self target profile build_all s Hmk.
  unfold CiqxApp_build. unfold bind at 1. unfold mkdir_exist_ok.
  rewrite Hmk. reflexivity.
Qed.

(** ** Further properties of GarminEmulator.run and CiqxApp.run *)

(** The streaming loop when the process exits on its own: everything
    read before has been printed, in order. *)
Lemma stream_output_exits :
  forall (pre rest : list ReadStep) (code : Z) (s : State),
    forallb keeps_streaming pre = true ->
    stream_output (pre ++ Read "" (Some code) :: rest) s
    = (Ok tt,
       {| world := world s;
          trace := (trace s ++ flat_map printed pre)%list |}).
Proof.
  induction pre as [|step pre IH]; intros rest code s Hpre.
  - cbn. rewrite app_nil_r. destruct s; reflexivity.
  - cbn [forallb] in Hpre. apply andb_true_iff in Hpre as [Hstep Hpre].
    destruct step as [output poll| |e]; try discriminate.
    cbn [keeps_streaming] in Hstep. apply negb_true_iff in Hstep.
    cbn [app stream_output flat_map printed]. rewrite Hstep.
    destruct (output =? "").
    + unfold bind at 1. unfold ret at 1. rewrite IH by assumption.
      reflexivity.
    + rewrite bind_emit, IH by assumption. cbn [world trace].
      rewrite <- app_assoc. reflexivity.
Qed.

(** [run] from the launch on, when the process exits on its own. *)
Lemma CiqxApp_run_until_exit :
  forall (compiler : Compiler) (emulator : Emulator) (config : CiqxConfig)
         (target : string) (profile : Profile) (s s1 s2 : State)
         (process : Popen) (pre rest : list ReadStep) (code : Z),
    let self := {| app_compiler := compiler; app_emulator := emulator;
                   app_config := config |} in
    let app_path := output_path (out_dir (project config)) target profile in
    CiqxApp_build self target profile false s = (Ok tt, s1) ->
    path_exists (world s1) app_path = true ->
    emulator app_path target s1 = (Ok process, s2) ->
    popen_pending process = (pre ++ Read "" (Some code) :: rest)%list ->
    forallb keeps_streaming pre = true ->
    CiqxApp_run self target profile s
    = (Ok tt,
       {| world := world s2;
          trace := (trace s2 ++ flat_map printed pre)%list |}).
Proof.
  intros compiler emulator config target profile s s1 s2 process pre rest
         code self app_path Hb Hex Hrun Hpend Hpre.
  unfold CiqxApp_run. rewrite (bind_Ok _ _ _ _ _ Hb).
  rewrite bind_exists. cbn [app_config app_emulator self]. fold app_path.
  rewrite Hex. cbn [negb]. rewrite (bind_Ok _ _ _ _ _ Hrun).
  rewrite Hpend.
  apply try_except_Ok. apply stream_output_exits. exact Hpre.
Qed.

(** X11. [run] does not look at the verdict of its build: when the
    compile has just failed and an artifact from an earlier build is at
    the output path, that artifact is launched. *)
Theorem run_launches_stale_artifact :
  forall (compiler : Compiler) (emulator : Emulator) (config : CiqxConfig)
         (target : string) (profile : Profile) (s s1 s2 : State)
         (w' : World) (process : Popen) (pre rest : list ReadStep)
         (code : Z),
    let self := {| app_compiler := compiler; app_emulator := emulator;
                   app_config := config |} in
    let app_path := output_path (out_dir (project config)) target profile in
    path_mkdir (world s) (out_dir (project config)) = Some w' ->
    compiler target profile (manifest (project config)) app_path
             (developer_key (signing config))
             {| world := w';
                trace := (trace s ++ [Mkdir (out_dir (project config))])%list |}
    = (Ok false, s1) ->
    path_exists (world s1) app_path = true ->
    emulator app_path target s1 = (Ok process, s2) ->
    popen_pending process = (pre ++ Read "" (Some code) :: rest)%list ->
    forallb keeps_streaming pre = true ->
    CiqxApp_run self target profile s
    = (Ok tt,
       {| world := world s2;
          trace := (trace s2 ++ flat_map printed pre)%list |}).
Proof.
  intros compiler emulator config target profile s s1 s2 w' process pre
         rest code self app_path Hmk Hc Hex Hrun Hpend Hpre.
  apply (CiqxApp_run_until_exit compiler emulator config target profile
           s s1 s2 process pre rest code); try assumption.
  unfold CiqxApp_build. cbn [app_config app_compiler].
  unfold bind at 1. unfold mkdir_exist_ok. rewrite Hmk.
  fold app_path. unfold bind. rewrite Hc. reflexivity.
Qed.

(** ** Further properties of CiqxApp.watch *)

(** X12. An exception other than the interrupt that leaves the first
    build-and-run leaves [watch] too, and the observer that [watch]
    started is neither stopped nor joined. *)
Theorem watch_failure_leaves_observer_running :
  forall (self : CiqxApp) (target : string) (profile : Profile)
         (idle : list IdleStep) (s s1 : State) (e : Exn),
    let s0 :=
      {| world := world s;
         trace := (trace s
                   ++ [LogInfo ("Starting watch mode for " ++ target ++ " ("
                                ++ Profile_value profile ++ ")");
                       LogInfo "Press Ctrl+C to stop";
                       ObserverSchedule watch_patterns "." true;
                       ObserverStart])%list |} in
    e <> KeyboardInterrupt ->
    CiqxApp_run self target profile s0 = (Raise e, s1) ->
    CiqxApp_watch self target profile idle s = (Raise e, s1).
Proof.
  intros self target profile idle s s1 e s0 He Hrun.
  unfold CiqxApp_watch. rewrite !bind_emit. cbn [world trace].
  rewrite <- !app_assoc. cbn [app]. fold s0.
  apply bind_Raise. unfold try_except.
  rewrite (bind_Raise _ _ _ _ _ Hrun).
  destruct e; try reflexivity. contradiction.
Qed.

(** [run], interrupted while it streams. *)
Lemma CiqxApp_run_interrupted :
  forall (compiler : Compiler) (emulator : Emulator) (config : CiqxConfig)
         (target : string) (profile : Profile) (s s1 s2 : State)
         (process : Popen) (pre rest : list ReadStep),
    let self := {| app_compiler := compiler; app_emulator := emulator;
                   app_config := config |} in
    let app_path := output_path (out_dir (project config)) target profile in
    CiqxApp_build self target profile false s = (Ok tt, s1) ->
    path_exists (world s1) app_path = true ->
    emulator app_path target s1 = (Ok process, s2) ->
    popen_pending process = (pre ++ ReadInterrupt :: rest)%list ->
    forallb keeps_streaming pre = true ->
    CiqxApp_run self target profile s
    = (Ok tt,
       {| world := world s2;
          trace := (trace s2 ++ flat_map printed pre
                    ++ [LogInfo "Stopping simulator...";
                        ProcessTerminate (popen_args process)])%list |}).
Proof.
  intros compiler emulator config target profile s s1 s2 process pre rest
         self app_path Hb Hex Hrun Hpend Hpre.
  unfold CiqxApp_run. rewrite (bind_Ok _ _ _ _ _ Hb).
  rewrite bind_exists. cbn [app_config app_emulator self]. fold app_path.
  rewrite Hex. cbn [negb]. rewrite (bind_Ok _ _ _ _ _ Hrun).
  rewrite Hpend.
  erewrite try_except_caught;
    [| apply stream_output_interrupted; assumption | reflexivity].
  rewrite bind_emit. unfold emit. cbn [world trace].
  rewrite <- !app_assoc. reflexivity.
Qed.

(** X13. In watch mode a first interrupt, arriving while the simulator
    streams, only stops the simulator: [watch] goes on to its idle
    loop, and it is the next interrupt that stops and joins the
    observer and ends [watch]. *)
Theorem watch_survives_interrupt_of_simulator :
  forall (compiler : Compiler) (emulator : Emulator) (config : CiqxConfig)
         (target : string) (profile : Profile) (s s1 s2 : State)
         (process : Popen) (pre rest : list ReadStep)
         (n : nat) (idle_rest : list IdleStep),
    let self := {| app_compiler := compiler; app_emulator := emulator;
                   app_config := config |} in
    let app_path := output_path (out_dir (project config)) target profile in
    let s0 :=
      {| world := world s;
         trace := (trace s
                   ++ [LogInfo ("Starting watch mode for " ++ target ++ " ("
                                ++ Profile_value profile ++ ")");
                       LogInfo "Press Ctrl+C to stop";
                       ObserverSchedule watch_patterns "." true;
                       ObserverStart])%list |} in
    CiqxApp_build self target profile false s0 = (Ok tt, s1) ->
    path_exists (world s1) app_path = true ->
    emulator app_path target s1 = (Ok process, s2) ->
    popen_pending process = (pre ++ ReadInterrupt :: rest)%list ->
    forallb keeps_streaming pre = true ->
    CiqxApp_watch self target profile
                  (repeat Slept n ++ IdleInterrupt :: idle_rest)%list s
    = (Ok tt,
       {| world := world s2;
          trace := (trace s2 ++ flat_map printed pre
                    ++ [LogInfo "Stopping simulator...";
                        ProcessTerminate (popen_args process)]
                    ++ repeat (Sleep 1) n
                    ++ [ObserverStop; LogInfo "Watch mode stopped";
                        ObserverJoin])%list |}).
Proof.
  intros compiler emulator config target profile s s1 s2 process pre rest
         n idle_rest self app_path s0 Hb Hex Hrun Hpend Hpre.
  pose proof (CiqxApp_run_interrupted compiler emulator config target
                profile s0 s1 s2 process pre rest Hb Hex Hrun Hpend Hpre)
    as Hint.
  unfold CiqxApp_watch. rewrite !bind_emit. cbn [world trace].
  rewrite <- !app_assoc. cbn [app]. fold s0.
  unfold bind at 1.
  erewrite try_except_caught;
    [| rewrite (bind_Ok _ _ _ _ _ Hint); apply idle_loop_interrupted
     | reflexivity].
  rewrite bind_emit. unfold emit. cbn [world trace].
  rewrite <- !app_assoc. reflexivity.
Qed.

(** ** Further properties of ProjectWatcher.on_modified *)

(** What one event does. *)
Lemma on_modified_outcome :
  forall (S : Type) (callback : S -> S) (self : ProjectWatcher)
         (event : FileSystemEvent) (now : Q) (s : S),
    on_modified callback self event now s
    = if is_directory event || Qltb (now - last_modified self) (1 # 2)
      then (self, s)
      else ({| patterns := patterns self; last_modified := now |},
            if existsb (path_match (src_path event)) (patterns self)
            then callback s else s).
Proof.
  intros S callback self event now s. unfold on_modified.
  destruct (is_directory event); [reflexivity|]. cbn [orb].
  destruct (Qltb _ _); [reflexivity|].
  cbn [patterns]. rewrite match_patterns_existsb. reflexivity.
Qed.

(** X14. One event calls the callback at most once, however many
    patterns match: it is called, once, exactly when the event is not a
    directory event, is not debounced and matches some pattern; the
    last-event time moves exactly when the event is not a directory
    event and is not debounced. *)
Theorem on_modified_calls_back_once_iff_due :
  forall (S : Type) (callback : S -> S) (self : ProjectWatcher)
         (event : FileSystemEvent) (now : Q) (s : S),
    on_modified callback self event now s
    = if is_directory event || Qltb (now - last_modified self) (1 # 2)
      then (self, s)
      else ({| patterns := patterns self; last_modified := now |},
            if existsb (path_match (src_path event)) (patterns self)
            then callback s else s).
Proof.
  exact on_modified_outcome.
Qed.

(** One event leaves the patterns alone and never moves the last-event
    time backwards. *)
Lemma on_modified_keeps_patterns_and_order :
  forall (S : Type) (callback : S -> S) (self : ProjectWatcher)
         (event : FileSystemEvent) (now : Q) (s : S),
    patterns (fst (on_modified callback self event now s)) = patterns self
    /\ (last_modified self
        <= last_modified (fst (on_modified callback self event now s)))%Q.
Proof.
  intros S callback self event now s. unfold on_modified.
  destruct (is_directory event); [split; [reflexivity|apply Qle_refl]|].
  destruct (Qltb _ _) eqn:E; [split; [reflexivity|apply Qle_refl]|].
  cbn [fst patterns last_modified]. split; [reflexivity|].
  apply Qltb_false in E. lra.
Qed.

(** X15. Whatever events arrive, at whatever times, the watcher keeps
    its patterns and its last-event time never decreases. *)
Theorem dispatch_keeps_patterns_and_order :
  forall (S : Type) (callback : S -> S)
         (events : list (FileSystemEvent * Q)) (self : ProjectWatcher)
         (s : S),
    patterns (fst (dispatch callback self events s)) = patterns self
    /\ (last_modified self
        <= last_modified (fst (dispatch callback self events s)))%Q.
Proof.
  intros S callback events.
  induction events as [|[event now] rest IH]; intros self s.
  - split; [reflexivity|apply Qle_refl].
  - cbn [dispatch].
    destruct (on_modified_keeps_patterns_and_order S callback self event
                now s) as [Hp Hl].
    destruct (on_modified callback self event now s) as [self' s'].
    cbn [fst] in Hp, Hl.
    destruct (IH self' s') as [Hp' Hl']. split.
    + rewrite Hp'. exact Hp.
    + eapply Qle_trans; eassumption.
Qed.

(** X16. Eligible events that each come at least 0.5 s after the one
    before (and the first at least 0.5 s after the last-event time) call
    the callback once each. *)
Theorem spaced_events_each_call_back :
  forall (S : Type) (callback : S -> S)
         (events : list (FileSystemEvent * Q)) (self : ProjectWatcher)
         (s : S),
    forallb (fun en => eligible self (fst en)) events = true ->
    well_spaced (last_modified self) events = true ->
    snd (dispatch callback self events s)
    = Nat.iter (List.length events) callback s.
Proof.
  intros S callback events.
  induction events as [|[event now] rest IH]; intros self s Hel Hsp.
  - reflexivity.
  - cbn [forallb fst] in Hel. apply andb_true_iff in Hel as [He Hel].
    cbn [well_spaced] in Hsp. apply andb_true_iff in Hsp as [Hnow Hsp].
    unfold eligible in He. apply andb_true_iff in He as [Hdir Hmatch].
    apply negb_true_iff in Hdir.
    cbn [dispatch]. rewrite on_modified_outcome.
    rewrite Hdir. cbn [orb]. unfold Qltb. rewrite Hnow. cbn [negb].
    rewrite Hmatch.
    set (self' := {| patterns := patterns self; last_modified := now |}).
    rewrite (IH self' (callback s)); [| exact Hel | exact Hsp].
    cbn [List.length]. rewrite Nat.iter_succ_r. reflexivity.
Qed.

(** X17. Events whose times all lie less than 0.5 s from one another
    call the callback at most once between them, whatever the watcher's
    state when they arrive. *)
Theorem one_window_calls_back_at_most_once :
  forall (S : Type) (callback : S -> S)
         (events : list (FileSystemEvent * Q)) (self : ProjectWatcher)
         (s : S),
    (forall t t' : Q,
        In t (map snd events) -> In t' (map snd events) ->
        (t' - t < 1 # 2)%Q) ->
    snd (dispatch callback self events s) = s
    \/ snd (dispatch callback self events s) = callback s.
Proof.
  intros S callback events.
  induction events as [|[event now] rest IH]; intros self s Hclose.
  - left. reflexivity.
  - cbn [dispatch]. rewrite on_modified_outcome.
    destruct (is_directory event || Qltb (now - last_modified self) (1 # 2)).
    + apply IH. intros t t' Ht Ht'. apply Hclose; right; assumption.
    + set (self' := {| patterns := patterns self; last_modified := now |}).
      rewrite dispatch_inside_window.
      * cbn [snd]. destruct (existsb _ _); [right|left]; reflexivity.
      * apply Forall_forall. intros [e t] Hin. cbn [snd last_modified self'].
        apply Hclose; [left; reflexivity|].
        right. change t with (snd (e, t)). apply in_map. exact Hin.
Qed.

(** X18. Directory events do not count: an event stream and the same
    stream without its directory events have the same effect. *)
Theorem dispatch_ignores_directory_events :
  forall (S : Type) (callback : S -> S)
         (events : list (FileSystemEvent * Q)) (self : ProjectWatcher)
         (s : S),
    dispatch callback self events s
    = dispatch callback self
        (filter (fun en => negb (is_directory (fst en))) events) s.
Proof.
  intros S callback events.
  induction events as [|[event now] rest IH]; intros self s.
  - reflexivity.
  - cbn [filter fst]. destruct (is_directory event) eqn:Hdir; cbn [negb].
    + cbn [dispatch]. unfold on_modified. rewrite Hdir. apply IH.
    + cbn [dispatch].
      destruct (on_modified callback self event now s) as [self' s'].
      apply IH.
Qed.

(** ** Toolchain discovery *)

Section DiscoveryProperties.

Context {dirs : Directories}.

Lemma find_versioned_Some (w : World) (subdirs : list Path) (p : Path) :
  find_versioned w subdirs = Some p ->
  In p subdirs
  /\ is_dir w p = true
  /\ contains "connectiq-sdk" (path_name p) = true
  /\ path_exists w (path_join p "bin") = true.
Proof.
  induction subdirs as [|subdir rest IH]; cbn [find_versioned];
    [discriminate|].
  destruct (is_dir w subdir && contains "connectiq-sdk" (path_name subdir))
    eqn:Hv.
  - destruct (path_exists w (path_join subdir "bin")) eqn:Hbin.
    + intros [= <-]. apply andb_true_iff in Hv as [Hd Hn].
      repeat split; try assumption. left. reflexivity.
    + intros H. destruct (IH H) as (Hin & Hrest).
      split; [right; exact Hin | exact Hrest].
  - intros H. destruct (IH H) as (Hin & Hrest).
    split; [right; exact Hin | exact Hrest].
Qed.

(** The discovery only looks: it leaves no trace and changes nothing. *)
Lemma find_sdk_in_state (candidates : list Path) (s : State) :
  snd (find_sdk_in candidates s) = s.
Proof.
  induction candidates as [|candidate rest IH]; [reflexivity|].
  cbn [find_sdk_in]. rewrite bind_exists.
  destruct (path_exists (world s) candidate); [|exact IH].
  rewrite bind_exists.
  destruct (path_exists (world s) (path_join candidate "bin"));
    [reflexivity|].
  destruct (iterdir (world s) candidate) as [subdirs|]; [|reflexivity].
  destruct (find_versioned (world s) subdirs); [reflexivity|exact IH].
Qed.

Lemma find_sdk_in_Some (candidates : list Path) (s s' : State) (p : Path) :
  find_sdk_in candidates s = (Ok (Some p), s') ->
  path_exists (world s) (path_join p "bin") = true
  /\ exists candidate : Path,
       In candidate candidates
       /\ path_exists (world s) candidate = true
       /\ (p = candidate
           \/ exists subdirs : list Path,
                iterdir (world s) candidate = Some subdirs
                /\ In p subdirs
                /\ is_dir (world s) p = true
                /\ contains "connectiq-sdk" (path_name p) = true).
Proof.
  induction candidates as [|candidate rest IH]; cbn [find_sdk_in];
    [discriminate|].
  rewrite bind_exists.
  assert (forall E : find_sdk_in rest s = (Ok (Some p), s'),
             path_exists (world s) (path_join p "bin") = true
             /\ exists c : Path,
                  In c (candidate :: rest)
                  /\ path_exists (world s) c = true
                  /\ (p = c
                      \/ exists subdirs : list Path,
                           iterdir (world s) c = Some subdirs
                           /\ In p subdirs
                           /\ is_dir (world s) p = true
                           /\ contains "connectiq-sdk" (path_name p) = true))
    as Hrest.
  { intros E. destruct (IH E) as (Hbin & c & Hin & Hc).
    split; [exact Hbin|]. exists c. split; [right; exact Hin | exact Hc]. }
  destruct (path_exists (world s) candidate) eqn:Hex; [|exact Hrest].
  rewrite bind_exists.
  destruct (path_exists (world s) (path_join candidate "bin")) eqn:Hbin.
  - intros [= <- <-]. split; [exact Hbin|].
    exists candidate. split; [left; reflexivity|].
    split; [exact Hex | left; reflexivity].
  - destruct (iterdir (world s) candidate) as [subdirs|] eqn:Hit;
      [|discriminate].
    destruct (find_versioned (world s) subdirs) as [subdir|] eqn:Hv;
      [|exact Hrest].
    intros [= <- <-].
    destruct (find_versioned_Some _ _ _ Hv) as (Hin & Hd & Hn & Hb).
    split; [exact Hb|].
    exists candidate. split; [left; reflexivity|].
    split; [exact Hex|]. right. exists subdirs. repeat split; assumption.
Qed.

(** X19. What [_find_sdk] finds is sound: the directory it returns has a
    [bin] entry, and it is either one of the three conventional
    locations, or a directory inside one of them whose name contains
    [connectiq-sdk]; the search changes nothing. *)
Theorem find_sdk_sound :
  forall (s s' : State) (p : Path),
    GarminCompiler_find_sdk s = (Ok (Some p), s') ->
    s' = s
    /\ path_exists (world s) (path_join p "bin") = true
    /\ exists candidate : Path,
         In candidate sdk_candidates
         /\ path_exists (world s) candidate = true
         /\ (p = candidate
             \/ exists subdirs : list Path,
                  iterdir (world s) candidate = Some subdirs
                  /\ In p subdirs
                  /\ is_dir (world s) p = true
                  /\ contains "connectiq-sdk" (path_name p) = true).
Proof.
  intros s s' p E. split.
  - pose proof (find_sdk_in_state sdk_candidates s) as Hs.
    unfold GarminCompiler_find_sdk in E. rewrite E in Hs.
    exact Hs.
  - exact (find_sdk_in_Some sdk_candidates s s' p E).
Qed.

(** X20. When none of the conventional locations exists, [_find_sdk]
    answers [None], and a compiler constructed without an explicit path
    has no toolchain root. *)
Theorem find_sdk_none_without_candidates :
  forall s : State,
    (forall candidate : Path,
        In candidate sdk_candidates ->
        path_exists (world s) candidate = false) ->
    GarminCompiler_find_sdk s = (Ok None, s)
    /\ GarminCompiler_init None s
       = (Ok {| compiler_sdk_path := None |}, s).
Proof.
  intros s Habsent.
  assert (GarminCompiler_find_sdk s = (Ok None, s)) as E.
  { unfold GarminCompiler_find_sdk.
    induction sdk_candidates as [|candidate rest IH]; [reflexivity|].
    cbn [find_sdk_in]. rewrite bind_exists.
    rewrite (Habsent candidate (or_introl eq_refl)).
    apply IH. intros c Hc. apply Habsent. right. exact Hc. }
  split; [exact E|].
  unfold GarminCompiler_init. rewrite (bind_Ok _ _ _ _ _ E). reflexivity.
Qed.

(** X21. A conventional location that exists without a [bin] entry and
    cannot be listed (it is a file) ends the search with the [OSError]
    of [iterdir], when no location before it exists; later locations
    are not looked at. *)
Theorem find_sdk_raises_on_unlistable_candidate :
  forall (s : State) (before after : list Path) (candidate : Path),
    sdk_candidates = (before ++ candidate :: after)%list ->
    (forall c : Path, In c before -> path_exists (world s) c = false) ->
    path_exists (world s) candidate = true ->
    path_exists (world s) (path_join candidate "bin") = false ->
    iterdir (world s) candidate = None ->
    GarminCompiler_find_sdk s = (Raise OSError, s).
Proof.
  intros s before after candidate Hsplit Hbefore Hex Hbin Hit.
  unfold GarminCompiler_find_sdk. rewrite Hsplit. clear Hsplit.
  induction before as [|c before IH]; cbn [app find_sdk_in].
  - rewrite bind_exists, Hex, bind_exists, Hbin, Hit. reflexivity.
  - rewrite bind_exists, (Hbefore c (or_introl eq_refl)).
    apply IH. intros c' Hc'. apply Hbefore. right. exact Hc'.
Qed.

End DiscoveryProperties.

(** ** ServiceContainer *)

(** X23. [get] after [register] gives the registered service back, also
    when the name was registered before, and leaves what is registered
    under other names as it was. *)
Theorem get_after_register :
  forall (self : ServiceContainer) (name other : string) (service : Service),
    ServiceContainer_get (ServiceContainer_register self name service) name
    = inl service
    /\ (other <> name ->
        ServiceContainer_get (ServiceContainer_register self name service)
                             other
        = ServiceContainer_get self other).
Proof.
  intros self name other service.
  induction self as [|[key value] rest [IHsame IHother]].
  - cbn. rewrite String.eqb_refl. split; [reflexivity|].
    intros Hne. apply String.eqb_neq in Hne.
    rewrite String.eqb_sym, Hne. reflexivity.
  - cbn [ServiceContainer_register].
    destruct (key =? name) eqn:E; cbn [ServiceContainer_get].
    + rewrite E. split; [reflexivity|]. intros Hne.
      apply String.eqb_eq in E. subst key.
      apply String.eqb_neq in Hne. rewrite String.eqb_sym, Hne.
      reflexivity.
    + rewrite E. split; [exact IHsame|]. intros Hne.
      destruct (key =? other); [reflexivity|]. apply IHother. exact Hne.
Qed.

(** X24. [get] raises [KeyError] exactly for the names under which
    nothing is registered, and the message names the service asked
    for. *)
Theorem get_fails_iff_unregistered :
  forall (self : ServiceContainer) (name : string),
    (~ In name (map fst self)
     -> ServiceContainer_get self name
        = inr ("Service " ++ name ++ " not registered"))
    /\ (In name (map fst self)
        -> exists service : Service,
             ServiceContainer_get self name = inl service).
Proof.
  intros self name. induction self as [|[key value] rest [IHno IHyes]].
  - split; [reflexivity|]. intros [].
  - cbn [map fst In ServiceContainer_get]. split.
    + intros Hno. destruct (key =? name) eqn:E.
      * apply String.eqb_eq in E. exfalso. apply Hno. left. exact E.
      * apply IHno. intros Hin. apply Hno. right. exact Hin.
    + intros [Hk|Hin].
      * subst key. rewrite String.eqb_refl. eexists. reflexivity.
      * destruct (key =? name); [eexists; reflexivity|]. apply IHyes.
        exact Hin.
Qed.

(** ** The methods with the failures of the libraries *)

Section HazardProperties.

Context {hz : Hazards}.

Lemma bind_assoc {A B C} (c : M A) (f : A -> M B) (g : B -> M C) s :
  bind (bind c f) g s = bind c (fun a => bind (f a) g) s.
Proof.
  unfold bind. destruct (c s) as [[a| e |] s']; reflexivity.
Qed.

Lemma bind_ret {A B} (a : A) (k : A -> M B) s : bind (ret a) k s = k a s.
Proof. reflexivity. Qed.

Lemma bind_console {B} (e : Effect) (k : unit -> M B) s :
  console_failure e = None ->
  bind (Hazard.console e) k s
  = k tt {| world := world s; trace := (trace s ++ [e])%list |}.
Proof.
  intros H. unfold bind, Hazard.console. rewrite H. reflexivity.
Qed.

Lemma bind_hexists {B} (p : Path) (k : bool -> M B) s :
  exists_failure (world s) p = None ->
  bind (Hazard.exists_ p) k s = k (path_exists (world s) p) s.
Proof.
  intros H. unfold bind, Hazard.exists_. rewrite H. reflexivity.
Qed.

Lemma bind_console_fails {B} (e : Effect) (k : unit -> M B) s x :
  console_failure e = Some x ->
  bind (Hazard.console e) k s = (Raise x, s).
Proof.
  intros H. unfold bind, Hazard.console. rewrite H. reflexivity.
Qed.

(** [compile] up to the launch of the external compiler. *)
Lemma Hazard_compile_launch :
  forall (self : GarminCompiler) (sdk : Path) (target : string)
         (profile : Profile) (manifest output dev_key : Path) (s : State),
    compiler_sdk_path self = Some sdk ->
    exists_failure (world s) (path_join (path_join sdk "bin") "monkeyc")
    = None ->
    path_exists (world s) (path_join (path_join sdk "bin") "monkeyc") = true ->
    exists_failure (world s) jungle_file = None ->
    let cmd := compile_cmd (path_exists (world s) jungle_file)
                 (path_join (path_join sdk "bin") "monkeyc")
                 target profile manifest output dev_key in
    let building := LogInfo ("Building " ++ target ++ " ("
                             ++ Profile_value profile ++ ")...") in
    console_failure building = None ->
    Hazard.GarminCompiler_compile self target profile manifest output
                                  dev_key s
    = try_except
        (_ <- Hazard.subprocess_run cmd ;;
         Hazard.console (LogSuccess ("Built " ++ target ++ " successfully")) ;;
         ret true)
        (fun e =>
           match e with
           | CalledProcessError _ stderr =>
               Some (Hazard.console (LogError ("Build failed: " ++ stderr)) ;;
                     ret false)
           | _ => None
           end)
        {| world := world s; trace := (trace s ++ [building])%list |}.
Proof.
  intros self sdk target profile manifest output dev_key s Hsdk Hxm Hmc Hxj
         cmd building Hb.
  unfold Hazard.GarminCompiler_compile. rewrite Hsdk.
  rewrite (bind_hexists _ _ _ Hxm), Hmc. cbn [negb].
  rewrite (bind_hexists _ _ _ Hxj).
  fold cmd. fold building. rewrite (bind_console _ _ _ Hb). reflexivity.
Qed.

(** When none of the libraries fails, the method with the failures is
    the method as first written. *)
Lemma Hazard_compile_at_best :
  (forall e, console_failure e = None) ->
  (forall w p, exists_failure w p = None) ->
  (forall w cmd, launch_failure w cmd = None) ->
  (forall w cmd, decode_failure w cmd = None) ->
  forall (self : GarminCompiler) target profile manifest output dev_key s,
    Hazard.GarminCompiler_compile self target profile manifest output
                                  dev_key s
    = GarminCompiler_compile self target profile manifest output dev_key s.
Proof.
  intros Hc Hx Hl Hd self target profile manifest output dev_key s.
  unfold Hazard.GarminCompiler_compile, GarminCompiler_compile.
  destruct (compiler_sdk_path self) as [sdk|];
    [|unfold bind, Hazard.console; rewrite Hc; reflexivity].
  rewrite bind_exists, (bind_hexists _ _ _ (Hx _ _)).
  destruct (path_exists (world s) _); cbn [negb];
    [|unfold bind, Hazard.console; rewrite Hc; reflexivity].
  rewrite bind_exists, (bind_hexists _ _ _ (Hx _ _)), bind_emit,
    (bind_console _ _ _ (Hc _)).
  unfold try_except, bind, Hazard.subprocess_run, subprocess_run,
    Hazard.console.
  cbn [world trace]. rewrite Hl, Hd.
  destruct (os_run (world s) _) as [cp w'].
  destruct (cp_returncode cp =? 0)%Z; cbv beta iota zeta; rewrite Hc;
    reflexivity.
Qed.

(** C5, as the code has it. When the external compiler is launched,
    its captured output decodes, it exits with a non-zero status and the
    console accepts the two log lines involved, [compile] returns
    [False] to its caller, raising nothing, and the captured standard
    error goes to the logger, as the error line [Build failed:
    <stderr>]. *)
Theorem compile_failure_returns_false :
  forall (self : GarminCompiler) (sdk : Path) (target : string)
         (profile : Profile) (manifest output dev_key : Path) (s : State)
         (cp : CompletedProcess) (w' : World),
    compiler_sdk_path self = Some sdk ->
    exists_failure (world s) (path_join (path_join sdk "bin") "monkeyc")
    = None ->
    path_exists (world s) (path_join (path_join sdk "bin") "monkeyc") = true ->
    exists_failure (world s) jungle_file = None ->
    let cmd := compile_cmd (path_exists (world s) jungle_file)
                 (path_join (path_join sdk "bin") "monkeyc")
                 target profile manifest output dev_key in
    let building := LogInfo ("Building " ++ target ++ " ("
                             ++ Profile_value profile ++ ")...") in
    console_failure building = None ->
    launch_failure (world s) cmd = None ->
    decode_failure (world s) cmd = None ->
    os_run (world s) cmd = (cp, w') ->
    cp_returncode cp <> 0%Z ->
    console_failure (LogError ("Build failed: " ++ cp_stderr cp)) = None ->
    Hazard.GarminCompiler_compile self target profile manifest output
                                  dev_key s
    = (Ok false,
       {| world := w';
          trace := (trace s
                    ++ [building; SubprocessRun cmd;
                        LogError ("Build failed: " ++ cp_stderr cp)])%list |}).
Proof.
  intros self sdk target profile manifest output dev_key s cp w'
         Hsdk Hxm Hmc Hxj cmd building Hb Hl Hd Hrun Hrc He.
  unfold cmd, building.
  rewrite (Hazard_compile_launch self sdk target profile manifest output
             dev_key s Hsdk Hxm Hmc Hxj Hb).
  fold cmd. fold building.
  unfold try_except, bind at 1, Hazard.subprocess_run. cbn [world trace].
  rewrite Hl, Hrun, Hd.
  destruct (cp_returncode cp =? 0)%Z eqn:E.
  - apply Z.eqb_eq in E. contradiction.
  - rewrite (bind_console _ _ _ He). cbn [world trace].
    rewrite <- !app_assoc. reflexivity.
Qed.

(** X1. With the toolchain there, when neither the examination of the
    paths, nor the launch, nor the decoding of the captured output, nor
    the console fails, [compile] returns a verdict, and the verdict is
    [True] exactly when the external compiler exits with status 0. *)
Theorem compile_verdict :
  forall (self : GarminCompiler) (sdk : Path) (target : string)
         (profile : Profile) (manifest output dev_key : Path) (s : State),
    compiler_sdk_path self = Some sdk ->
    exists_failure (world s) (path_join (path_join sdk "bin") "monkeyc")
    = None ->
    path_exists (world s) (path_join (path_join sdk "bin") "monkeyc") = true ->
    exists_failure (world s) jungle_file = None ->
    let cmd := compile_cmd (path_exists (world s) jungle_file)
                 (path_join (path_join sdk "bin") "monkeyc")
                 target profile manifest output dev_key in
    console_failure (LogInfo ("Building " ++ target ++ " ("
                              ++ Profile_value profile ++ ")...")) = None ->
    launch_failure (world s) cmd = None ->
    decode_failure (world s) cmd = None ->
    console_failure (LogSuccess ("Built " ++ target ++ " successfully"))
    = None ->
    console_failure
      (LogError ("Build failed: " ++ cp_stderr (fst (os_run (world s) cmd))))
    = None ->
    fst (Hazard.GarminCompiler_compile self target profile manifest output
                                       dev_key s)
    = Ok (cp_returncode (fst (os_run (world s) cmd)) =? 0)%Z.
Proof.
  intros self sdk target profile manifest output dev_key s Hsdk Hxm Hmc Hxj
         cmd Hb Hl Hd Hok Hko.
  unfold cmd.
  rewrite (Hazard_compile_launch self sdk target profile manifest output
             dev_key s Hsdk Hxm Hmc Hxj Hb).
  fold cmd. fold cmd in Hko.
  unfold try_except, bind at 1, Hazard.subprocess_run. cbn [world trace].
  rewrite Hl, Hd.
  destruct (os_run (world s) cmd) as [cp w']. cbn [fst] in *.
  destruct (cp_returncode cp =? 0)%Z.
  - rewrite (bind_console _ _ _ Hok). reflexivity.
  - rewrite (bind_console _ _ _ Hko). reflexivity.
Qed.

(** X25. What the libraries raise leaves [compile], which catches
    [CalledProcessError] only: a launch that fails (a [monkeyc] that
    exists but cannot be executed) raises after the [Building] line,
    before anything has run; captured output that does not decode raises
    once the compiler has run; and on a non-zero exit, an error line the
    console rejects raises instead of being logged. *)
Theorem compile_propagates_library_failures :
  forall (self : GarminCompiler) (sdk : Path) (target : string)
         (profile : Profile) (manifest output dev_key : Path) (s : State)
         (x : Exn),
    compiler_sdk_path self = Some sdk ->
    exists_failure (world s) (path_join (path_join sdk "bin") "monkeyc")
    = None ->
    path_exists (world s) (path_join (path_join sdk "bin") "monkeyc") = true ->
    exists_failure (world s) jungle_file = None ->
    let cmd := compile_cmd (path_exists (world s) jungle_file)
                 (path_join (path_join sdk "bin") "monkeyc")
                 target profile manifest output dev_key in
    let building := LogInfo ("Building " ++ target ++ " ("
                             ++ Profile_value profile ++ ")...") in
    console_failure building = None ->
    (forall code err, x <> CalledProcessError code err) ->
    (launch_failure (world s) cmd = Some x ->
     Hazard.GarminCompiler_compile self target profile manifest output
                                   dev_key s
     = (Raise x,
        {| world := world s; trace := (trace s ++ [building])%list |}))
    /\ (launch_failure (world s) cmd = None ->
        decode_failure (world s) cmd = Some x ->
        Hazard.GarminCompiler_compile self target profile manifest output
                                      dev_key s
        = (Raise x,
           {| world := snd (os_run (world s) cmd);
              trace := (trace s ++ [building; SubprocessRun cmd])%list |}))
    /\ (launch_failure (world s) cmd = None ->
        decode_failure (world s) cmd = None ->
        cp_returncode (fst (os_run (world s) cmd)) <> 0%Z ->
        console_failure
          (LogError ("Build failed: "
                     ++ cp_stderr (fst (os_run (world s) cmd)))) = Some x ->
        Hazard.GarminCompiler_compile self target profile manifest output
                                      dev_key s
        = (Raise x,
           {| world := snd (os_run (world s) cmd);
              trace := (trace s ++ [building; SubprocessRun cmd])%list |})).
Proof.
  intros self sdk target profile manifest output dev_key s x Hsdk Hxm Hmc
         Hxj cmd building Hb Hx.
  unfold cmd, building.
  rewrite (Hazard_compile_launch self sdk target profile manifest output
             dev_key s Hsdk Hxm Hmc Hxj Hb).
  fold cmd. fold building.
  repeat split.
  - intros Hl.
    unfold try_except, bind at 1, Hazard.subprocess_run. cbn [world trace].
    rewrite Hl.
    destruct x; try reflexivity. exfalso. eapply Hx. reflexivity.
  - intros Hl Hd.
    unfold try_except, bind at 1, Hazard.subprocess_run. cbn [world trace].
    rewrite Hl, Hd.
    destruct (os_run (world s) cmd) as [cp w']. cbn [snd].
    rewrite <- app_assoc.
    destruct x; try reflexivity. exfalso. eapply Hx. reflexivity.
  - intros Hl Hd Hrc He.
    unfold try_except, bind at 1, Hazard.subprocess_run. cbn [world trace].
    rewrite Hl, Hd.
    destruct (os_run (world s) cmd) as [cp w']. cbn [fst snd] in *.
    destruct (cp_returncode cp =? 0)%Z eqn:E.
    + apply Z.eqb_eq in E. contradiction.
    + rewrite (bind_console_fails _ _ _ _ He). cbn [world trace].
      rewrite <- app_assoc. reflexivity.
Qed.

(** What [doctor] answers and leaves behind once the configuration is
    loaded and the console takes its lines. *)
Lemma Hazard_doctor_outcome :
  forall (config_get : M CiqxConfig) (compiler : GarminCompiler)
         (config : CiqxConfig) (s s1 : State),
    console_failure (LogInfo "Running environment diagnostics...") = None ->
    config_get
      {| world := world s;
         trace := (trace s
                   ++ [LogInfo "Running environment diagnostics..."])%list |}
    = (Ok config, s1) ->
    (forall e : Effect,
        In e (Hazard.doctor_lines compiler config) ->
        console_failure e = None) ->
    (forall p : Path,
        In p (Hazard.doctor_paths compiler config) ->
        exists_failure (world s1) p = None) ->
    let r := Hazard.CiqxApp_doctor config_get compiler s in
    fst r
    = Ok match compiler_sdk_path compiler with
         | None => false
         | Some sdk =>
             path_exists (world s1) sdk
             && path_exists (world s1)
                  (path_join (path_join sdk "bin") "monkeyc")
         end
    /\ world (snd r) = world s1
    /\ exists logs : list Effect,
         trace (snd r) = (trace s1 ++ logs)%list
         /\ forallb is_log logs = true.
Proof.
  intros config_get compiler config s s1 Hfirst Hcfg Hlines Hpaths r.
  subst r.
  assert (exists_failure (world s1) (developer_key (signing config)) = None)
    as Hxk.
  { apply Hpaths. unfold Hazard.doctor_paths. apply in_or_app. right.
    left. reflexivity. }
  assert (forall e, In e [LogSuccess "monkeyc compiler found";
                          LogSuccess "Developer key found";
                          LogError ("Developer key not found: "
                                    ++ developer_key (signing config));
                          LogInfo "Generate with: openssl genrsa -out developer_key.pem 4096";
                          LogSuccess "Environment check complete!";
                          LogError "monkeyc not found";
                          LogError "Connect IQ SDK not found"] ->
                     console_failure e = None) as Hfixed.
  { intros e He. apply Hlines. unfold Hazard.doctor_lines.
    apply in_or_app. right. exact He. }
  unfold Hazard.CiqxApp_doctor.
  rewrite (bind_console _ _ _ Hfirst). rewrite (bind_Ok _ _ _ _ _ Hcfg).
  destruct (compiler_sdk_path compiler) as [sdk|] eqn:Hsdk.
  - assert (console_failure (LogSuccess ("Connect IQ SDK found at: " ++ sdk))
            = None) as Hfound.
    { apply Hlines. unfold Hazard.doctor_lines. rewrite Hsdk.
      left. reflexivity. }
    assert (exists_failure (world s1) sdk = None) as Hxs.
    { apply Hpaths. unfold Hazard.doctor_paths. rewrite Hsdk.
      left. reflexivity. }
    assert (exists_failure (world s1)
              (path_join (path_join sdk "bin") "monkeyc") = None) as Hxm.
    { apply Hpaths. unfold Hazard.doctor_paths. rewrite Hsdk.
      right. left. reflexivity. }
    rewrite (bind_hexists _ _ _ Hxs).
    destruct (path_exists (world s1) sdk); cbn [andb].
    + rewrite (bind_console _ _ _ Hfound).
      rewrite bind_hexists by (cbn [world]; exact Hxm). cbn [world trace].
      destruct (path_exists (world s1) _).
      * rewrite bind_console by (apply Hfixed; cbn; tauto).
        rewrite bind_hexists by (cbn [world]; exact Hxk). cbn [world trace].
        destruct (path_exists (world s1) _).
        -- rewrite !bind_console by (apply Hfixed; cbn; tauto).
           cbn. split; [reflexivity|]. split; [reflexivity|].
           rewrite <- !app_assoc. eexists. split; reflexivity.
        -- rewrite bind_assoc.
           rewrite !bind_console by (apply Hfixed; cbn; tauto).
           cbn. split; [reflexivity|]. split; [reflexivity|].
           rewrite <- !app_assoc. eexists. split; reflexivity.
      * rewrite bind_console by (apply Hfixed; cbn; tauto).
        cbn. split; [reflexivity|]. split; [reflexivity|].
        rewrite <- !app_assoc. eexists. split; reflexivity.
    + rewrite bind_console by (apply Hfixed; cbn; tauto).
      cbn. split; [reflexivity|]. split; [reflexivity|].
      eexists. split; reflexivity.
  - rewrite bind_ret. cbv beta iota.
    rewrite bind_console by (apply Hfixed; cbn; tauto).
    cbn. split; [reflexivity|]. split; [reflexivity|].
    eexists. split; reflexivity.
Qed.

(** X3. Once the configuration service has handed out the
    configuration, and as long as the console takes the lines and the
    paths can be examined, [doctor] returns [True] exactly when the
    toolchain root is known and exists and [monkeyc] is under it,
    whether or not the developer key is there; from the loading of the
    configuration on it only writes log lines and leaves the outside
    world as it was. *)
Theorem doctor_verdict :
  forall (config_get : M CiqxConfig) (compiler : GarminCompiler)
         (config : CiqxConfig) (s s1 : State),
    console_failure (LogInfo "Running environment diagnostics...") = None ->
    config_get
      {| world := world s;
         trace := (trace s
                   ++ [LogInfo "Running environment diagnostics..."])%list |}
    = (Ok config, s1) ->
    (forall e : Effect,
        In e (Hazard.doctor_lines compiler config) ->
        console_failure e = None) ->
    (forall p : Path,
        In p (Hazard.doctor_paths compiler config) ->
        exists_failure (world s1) p = None) ->
    let r := Hazard.CiqxApp_doctor config_get compiler s in
    fst r
    = Ok match compiler_sdk_path compiler with
         | None => false
         | Some sdk =>
             path_exists (world s1) sdk
             && path_exists (world s1)
                  (path_join (path_join sdk "bin") "monkeyc")
         end
    /\ world (snd r) = world s1
    /\ exists logs : list Effect,
         trace (snd r) = (trace s1 ++ logs)%list
         /\ forallb is_log logs = true.
Proof.
  exact Hazard_doctor_outcome.
Qed.










(** X9. With the launcher in place, examined without error, and its
    [Running] line taken by the console, [GarminEmulator.run] spawns
    exactly one process,
    [monkeydo app_path device], and returns its handle, unless the
    launch fails (a [monkeydo] that exists but cannot be executed): then
    what the launch raises leaves [run], after the log line. *)
Theorem emulator_launch_spawns_monkeydo :
  forall (self : GarminEmulator) (app_path : Path) (device : string)
         (s : State),
    launcher_missing self (world s) = false ->
    (forall sdk : Path,
        emulator_sdk_path self = Some sdk ->
        exists_failure (world s)
          (path_join (path_join sdk "bin") "monkeydo") = None) ->
    console_failure (LogInfo ("Running " ++ path_name app_path
                              ++ " on " ++ device)) = None ->
    exists sdk : Path,
      emulator_sdk_path self = Some sdk
      /\ let cmd := [path_join (path_join sdk "bin") "monkeydo";
                     app_path; device] in
         let s' := {| world := world s;
                      trace := (trace s
                                ++ [LogInfo ("Running " ++ path_name app_path
                                             ++ " on " ++ device)])%list |} in
         (launch_failure (world s) cmd = None ->
          Hazard.GarminEmulator_run self app_path device s
          = (Ok {| popen_args := cmd;
                   popen_pending := fst (os_spawn (world s) cmd) |},
             {| world := snd (os_spawn (world s) cmd);
                trace := (trace s' ++ [SubprocessPopen cmd])%list |}))
         /\ (forall x : Exn,
                launch_failure (world s) cmd = Some x ->
                Hazard.GarminEmulator_run self app_path device s
                = (Raise x, s')).
Proof.
  intros self app_path device s Hpresent Hx Hlog.
  unfold launcher_missing in Hpresent. unfold Hazard.GarminEmulator_run.
  destruct (emulator_sdk_path self) as [sdk|]; [|discriminate].
  exists sdk. split; [reflexivity|]. cbv zeta.
  apply negb_false_iff in Hpresent.
  rewrite (bind_hexists _ _ _ (Hx sdk eq_refl)), Hpresent. cbn [negb].
  rewrite (bind_console _ _ _ Hlog).
  unfold Hazard.subprocess_Popen. cbn [world trace]. split.
  - intros Hl. rewrite Hl.
    destruct (os_spawn (world s) _) as [steps w']. reflexivity.
  - intros x Hl. rewrite Hl. reflexivity.
Qed.

(** The streaming loop when the process exits on its own and the
    console takes every line. *)
Lemma Hazard_stream_output_exits :
  forall (pre rest : list ReadStep) (code : Z) (s : State),
    forallb keeps_streaming pre = true ->
    (forall e : Effect,
        In e (flat_map Hazard.printed pre) -> console_failure e = None) ->
    Hazard.stream_output (pre ++ Read "" (Some code) :: rest) s
    = (Ok tt,
       {| world := world s;
          trace := (trace s ++ flat_map Hazard.printed pre)%list |}).
Proof.
  induction pre as [|step pre IH]; intros rest code s Hpre Hok.
  - cbn. rewrite app_nil_r. destruct s; reflexivity.
  - cbn [forallb] in Hpre. apply andb_true_iff in Hpre as [Hstep Hpre].
    destruct step as [output poll| |e]; try discriminate.
    cbn [keeps_streaming] in Hstep. apply negb_true_iff in Hstep.
    cbn [app Hazard.stream_output flat_map Hazard.printed] in *.
    rewrite Hstep.
    destruct (output =? "").
    + rewrite bind_ret. rewrite IH by assumption. reflexivity.
    + rewrite bind_console by (apply Hok; left; reflexivity).
      rewrite IH; [| assumption | intros e He; apply Hok; right; exact He].
      cbn [world trace]. rewrite <- app_assoc. reflexivity.
Qed.

(** X10. When the simulator exits on its own and the console takes
    every line, [run] has printed every non-empty line it read,
    stripped, in the order read, and returns without asking the process
    to terminate. *)
Theorem run_streams_until_exit :
  forall (compiler : Compiler) (emulator : Emulator) (config : CiqxConfig)
         (target : string) (profile : Profile) (s s1 s2 : State)
         (process : Popen) (pre rest : list ReadStep) (code : Z),
    let self := {| app_compiler := compiler; app_emulator := emulator;
                   app_config := config |} in
    let app_path := output_path (out_dir (project config)) target profile in
    CiqxApp_build self target profile false s = (Ok tt, s1) ->
    exists_failure (world s1) app_path = None ->
    path_exists (world s1) app_path = true ->
    emulator app_path target s1 = (Ok process, s2) ->
    popen_pending process = (pre ++ Read "" (Some code) :: rest)%list ->
    forallb keeps_streaming pre = true ->
    (forall e : Effect,
        In e (flat_map Hazard.printed pre) -> console_failure e = None) ->
    Hazard.CiqxApp_run self target profile s
    = (Ok tt,
       {| world := world s2;
          trace := (trace s2 ++ flat_map Hazard.printed pre)%list |}).
Proof.
  intros compiler emulator config target profile s s1 s2 process pre rest
         code self app_path Hb Hxa Hex Hrun Hpend Hpre Hok.
  unfold Hazard.CiqxApp_run. rewrite (bind_Ok _ _ _ _ _ Hb).
  cbn [app_config app_emulator self]. fold app_path.
  rewrite (bind_hexists _ _ _ Hxa).
  rewrite Hex. cbn [negb]. rewrite (bind_Ok _ _ _ _ _ Hrun).
  rewrite Hpend.
  apply try_except_Ok. apply Hazard_stream_output_exits; assumption.
Qed.

(** X26. A line the console rejects ends the streaming: the exception
    leaves [run], which catches the interrupt only; the lines before it
    have been printed and the simulator is not asked to terminate. *)
Theorem run_stops_at_rejected_line :
  forall (compiler : Compiler) (emulator : Emulator) (config : CiqxConfig)
         (target : string) (profile : Profile) (s s1 s2 : State)
         (process : Popen) (pre rest : list ReadStep)
         (output : string) (poll : option Z) (x : Exn),
    let self := {| app_compiler := compiler; app_emulator := emulator;
                   app_config := config |} in
    let app_path := output_path (out_dir (project config)) target profile in
    CiqxApp_build self target profile false s = (Ok tt, s1) ->
    exists_failure (world s1) app_path = None ->
    path_exists (world s1) app_path = true ->
    emulator app_path target s1 = (Ok process, s2) ->
    popen_pending process = (pre ++ Read output poll :: rest)%list ->
    forallb keeps_streaming pre = true ->
    (forall e : Effect,
        In e (flat_map Hazard.printed pre) -> console_failure e = None) ->
    output <> "" ->
    console_failure
      (ConsolePrint ("[dim][SIM][/dim] " ++ str_strip output)) = Some x ->
    x <> KeyboardInterrupt ->
    Hazard.CiqxApp_run self target profile s
    = (Raise x,
       {| world := world s2;
          trace := (trace s2 ++ flat_map Hazard.printed pre)%list |}).
Proof.
  intros compiler emulator config target profile s s1 s2 process pre rest
         output poll x self app_path Hb Hxa Hex Hrun Hpend Hpre Hok Hne Hbad
         Hx.
  unfold Hazard.CiqxApp_run. rewrite (bind_Ok _ _ _ _ _ Hb).
  cbn [app_config app_emulator self]. fold app_path.
  rewrite (bind_hexists _ _ _ Hxa).
  rewrite Hex. cbn [negb]. rewrite (bind_Ok _ _ _ _ _ Hrun).
  rewrite Hpend.
  assert (Hazard.stream_output (pre ++ Read output poll :: rest) s2
          = (Raise x,
             {| world := world s2;
                trace := (trace s2 ++ flat_map Hazard.printed pre)%list |}))
    as Hstream.
  { clear Hrun Hpend. revert s2.
    induction pre as [|step pre IH]; intros s2.
    - cbn [app flat_map Hazard.stream_output].
      apply String.eqb_neq in Hne. rewrite Hne. cbn [andb].
      rewrite (bind_console_fails _ _ _ _ Hbad).
      rewrite app_nil_r. destruct s2; reflexivity.
    - cbn [forallb] in Hpre. apply andb_true_iff in Hpre as [Hstep Hpre].
      destruct step as [out p| |e]; try discriminate.
      cbn [keeps_streaming] in Hstep. apply negb_true_iff in Hstep.
      cbn [app Hazard.stream_output flat_map Hazard.printed] in *.
      rewrite Hstep.
      destruct (out =? "").
      + rewrite bind_ret. rewrite IH by assumption. reflexivity.
      + rewrite bind_console by (apply Hok; left; reflexivity).
        rewrite IH; [| assumption | intros e He; apply Hok; right; exact He].
        cbn [world trace]. rewrite <- app_assoc. reflexivity. }
  unfold try_except. rewrite Hstream.
  destruct x; try reflexivity. contradiction.
Qed.

End HazardProperties.

End Properties.

(** * The properties on the stub toolchain *)

Lemma GarminCompiler_returns (self : GarminCompiler) :
  returns (tc := Stub.toolchain) (GarminCompiler_compile self).
Proof.
  intros target profile manifest output dev_key s.
  apply GarminCompiler_compile_returns.
Defined.

Lemma compile_argument_vector_witness :
  exists verdict : Effect,
    trace (snd (GarminCompiler_compile Stub.garmin_compiler "fenix7" DEBUG
                  "manifest.xml" "build/fenix7-debug.prg"
                  "developer_key.der" (Stub.start Stub.installed)))
    = [LogInfo "Building fenix7 (debug)...";
       SubprocessRun ["/sdk/bin/monkeyc"; "-f"; "manifest.xml";
                      "-o"; "build/fenix7-debug.prg"; "-d"; "fenix7";
                      "-y"; "developer_key.der"; "-g"];
       verdict].
Proof.
  exact (compile_argument_vector Stub.garmin_compiler "/sdk" "fenix7" DEBUG
           "manifest.xml" "build/fenix7-debug.prg" "developer_key.der"
           (Stub.start Stub.installed) eq_refl eq_refl).
Defined.

Lemma build_all_counts_successes_witness :
  exists (results : list BuildResult) (s1 : State),
    results = [{| br_target := "fenix7"; br_succeeded := true |};
               {| br_target := "venu2"; br_succeeded := false |}]
    /\ CiqxApp_build Stub.ciqx "fenix7" DEBUG true
                     (Stub.start Stub.installed)
       = (Ok tt,
          {| world := world s1;
             trace := (trace s1 ++ [LogError "Built 1/2 targets"])%list |}).
Proof.
  destruct (build_all_counts_successes Stub.ciqx "fenix7" DEBUG
              (Stub.start Stub.installed)
              (Stub.add_file Stub.installed "build")
              (GarminCompiler_returns Stub.garmin_compiler) eq_refl)
    as (results & s1 & E & _ & Hb).
  exists results, s1.
  vm_compute in E. injection E as E1 E2. subst results.
  split; [reflexivity | exact Hb].
Defined.

Lemma build_all_exit_status_zero_witness :
  exit_status (build Stub.ciqx "fenix7" DEBUG true
                     (Stub.start Stub.installed)) = Some 0%Z.
Proof.
  exact (build_all_exit_status_zero Stub.ciqx "fenix7" DEBUG
           (Stub.start Stub.installed)
           (Stub.add_file Stub.installed "build")
           (GarminCompiler_returns Stub.garmin_compiler) eq_refl).
Defined.

(** C6 as stated fails: the sweep over [fenix7] and [venu2] in which the
    compile of [venu2] fails ends with exit status 0. *)
Lemma build_all_failure_exits_zero :
  fst (GarminCompiler_compile Stub.garmin_compiler "venu2" DEBUG
         "manifest.xml" "build/venu2-debug.prg" "developer_key.der"
         (Stub.start Stub.installed))
  = Ok false
  /\ last (trace (snd (build Stub.ciqx "fenix7" DEBUG true
                             (Stub.start Stub.installed))))
          ProgressAdvance
     = LogError "Built 1/2 targets"
  /\ exit_status (build Stub.ciqx "fenix7" DEBUG true
                        (Stub.start Stub.installed)) = Some 0%Z.
Proof.
  split; [reflexivity|]. split; reflexivity.
Qed.


Lemma emulator_launch_failure_is_raised_witness :
  exists msg : string,
    (forall (app_path : Path) (device : string),
        fst (GarminEmulator_run Stub.lost_emulator app_path device
               (snd (CiqxApp_build Stub.ciqx_without_sdk "fenix7" DEBUG
                                   false (Stub.start Stub.stale))))
        = Raise (RuntimeError msg))
    /\ fst (CiqxApp_run Stub.ciqx_without_sdk "fenix7" DEBUG
                        (Stub.start Stub.stale))
       = Raise (RuntimeError msg).
Proof.
  destruct (emulator_launch_failure_is_raised Stub.lost_emulator
              (GarminCompiler_compile {| compiler_sdk_path := None |})
              default_config "fenix7" DEBUG
              (Stub.start Stub.stale)
              (snd (CiqxApp_build Stub.ciqx_without_sdk "fenix7" DEBUG
                                  false (Stub.start Stub.stale)))
              eq_refl eq_refl eq_refl)
    as (msg & Hlaunch & Hrun).
  exists msg. split.
  - intros app_path device. rewrite Hlaunch. reflexivity.
  - unfold Stub.ciqx_without_sdk. rewrite Hrun. reflexivity.
Defined.

(** C8 as stated fails: with no toolchain root and an artifact left by
    an earlier build, the [RuntimeError] of the launch leaves the [run]
    command, which ends the process with a non-zero status. *)
Lemma launch_failure_leaves_run :
  run Stub.ciqx_without_sdk "fenix7" DEBUG (Stub.start Stub.stale)
  = (Raise (RuntimeError "Garmin SDK not found"),
     @mkState Stub.toolchain (Stub.add_file Stub.stale "build")
       [Mkdir "build"; LogError "Garmin SDK not found"])
  /\ exit_status (run Stub.ciqx_without_sdk "fenix7" DEBUG
                      (Stub.start Stub.stale)) = Some 1%Z.
Proof.
  split; reflexivity.
Qed.

Lemma run_interrupt_terminates_process_witness :
  CiqxApp_run Stub.ciqx "fenix7" DEBUG (Stub.start Stub.installed)
  = (Ok tt,
     @mkState Stub.toolchain
       (Stub.add_file (Stub.add_file Stub.installed "build")
                      "build/fenix7-debug.prg")
       [Mkdir "build";
        LogInfo "Building fenix7 (debug)...";
        SubprocessRun ["/sdk/bin/monkeyc"; "-f"; "manifest.xml";
                       "-o"; "build/fenix7-debug.prg"; "-d"; "fenix7";
                       "-y"; "developer_key.der"; "-g"];
        LogSuccess "Built fenix7 successfully";
        LogInfo "Running fenix7-debug.prg on fenix7";
        SubprocessPopen ["/sdk/bin/monkeydo"; "build/fenix7-debug.prg";
                         "fenix7"];
        ConsolePrint "[dim][SIM][/dim] ready";
        LogInfo "Stopping simulator...";
        ProcessTerminate ["/sdk/bin/monkeydo"; "build/fenix7-debug.prg";
                          "fenix7"]]).
Proof.
  exact (run_interrupt_terminates_process
           (GarminCompiler_compile Stub.garmin_compiler)
           (GarminEmulator_run Stub.garmin_emulator)
           default_config "fenix7" DEBUG
           (Stub.start Stub.installed)
           (snd (CiqxApp_build Stub.ciqx "fenix7" DEBUG false
                               (Stub.start Stub.installed)))
           (snd (GarminEmulator_run Stub.garmin_emulator
                   "build/fenix7-debug.prg" "fenix7"
                   (snd (CiqxApp_build Stub.ciqx "fenix7" DEBUG false
                                       (Stub.start Stub.installed)))))
           {| popen_args := ["/sdk/bin/monkeydo"; "build/fenix7-debug.prg";
                             "fenix7"];
              popen_pending := Stub.simulator Stub.installed |}
           [Read "ready " None; Read "" None] []
           eq_refl eq_refl eq_refl eq_refl eq_refl).
Defined.

Lemma watch_interrupt_stops_observer_witness :
  exists before : list Effect,
    CiqxApp_watch Stub.ciqx "fenix7" DEBUG [Slept; Slept; IdleInterrupt]
                  (Stub.start Stub.installed)
    = (Ok tt,
       @mkState Stub.toolchain
         (Stub.add_file (Stub.add_file Stub.installed "build")
                        "build/fenix7-debug.prg")
         (before ++ [Sleep 1; Sleep 1; ObserverStop;
                     LogInfo "Watch mode stopped"; ObserverJoin])%list).
Proof.
  eexists.
  refine (eq_trans
            (watch_interrupt_stops_observer Stub.ciqx "fenix7" DEBUG
               (Stub.start Stub.installed) _ 2 [] eq_refl) _).
  reflexivity.
Defined.

Lemma accepted_event_silences_window_witness :
  let r := on_modified (tc := Stub.toolchain) Nat.succ Stub.watcher
             Stub.readme_changed (1000 # 1) 0%nat in
  last_modified (fst r) = (1000 # 1)%Q
  /\ snd r = 0%nat
  /\ dispatch (tc := Stub.toolchain) Nat.succ (fst r)
        [(Stub.manifest_changed, (10003 # 10)%Q)] (snd r) = r.
Proof.
  assert (Hacc : (1 # 2 <= (1000 # 1) - last_modified Stub.watcher)%Q)
    by (apply Qle_bool_iff; reflexivity).
  assert (Hlater : Forall (fun en : FileSystemEvent * Q =>
                             (snd en - (1000 # 1) < 1 # 2)%Q)
                          [(Stub.manifest_changed, (10003 # 10)%Q)])
    by (constructor; [reflexivity | constructor]).
  destruct (accepted_event_silences_window (tc := Stub.toolchain)
              nat Nat.succ Stub.watcher Stub.readme_changed
              (1000 # 1) 0%nat
              [(Stub.manifest_changed, (10003 # 10)%Q)]
              eq_refl Hacc Hlater)
    as (Hlast & Hquiet & Hsilent).
  split; [exact Hlast|].
  split; [apply Hquiet; reflexivity | exact Hsilent].
Defined.

Lemma burst_triggers_once_at_first_event_witness :
  snd (on_modified (tc := Stub.toolchain) Nat.succ Stub.watcher
         Stub.manifest_changed (1000 # 1) 0%nat) = 1%nat
  /\ snd (dispatch (tc := Stub.toolchain) Nat.succ Stub.watcher
            [(Stub.manifest_changed, 1000 # 1);
             (Stub.manifest_changed, 10003 # 10)]%Q 0%nat)
     = 1%nat.
Proof.
  assert (Hacc : (1 # 2 <= (1000 # 1) - last_modified Stub.watcher)%Q)
    by (apply Qle_bool_iff; reflexivity).
  assert (Hlater : Forall (fun en : FileSystemEvent * Q =>
                             (snd en - (1000 # 1) < 1 # 2)%Q)
                          [(Stub.manifest_changed, (10003 # 10)%Q)])
    by (constructor; [reflexivity | constructor]).
  destruct (burst_triggers_once_at_first_event (tc := Stub.toolchain)
              nat Nat.succ Stub.watcher Stub.manifest_changed
              (1000 # 1) 0%nat
              [(Stub.manifest_changed, (10003 # 10)%Q)]
              eq_refl Hacc Hlater)
    as (Hfirst & Hall).
  rewrite Hfirst, Hall. split; reflexivity.
Defined.

(** C2 as stated fails: three eligible events, each 0.3 s after the one
    before, call the callback twice, and the first call is made while
    the first event is handled, not half a second after the last. *)
Lemma dense_burst_triggers_twice :
  forallb (eligible (tc := Stub.toolchain) Stub.watcher)
          (map fst Stub.dense_burst) = true
  /\ ((10003 # 10) - (1000 # 1) < 1 # 2)%Q
  /\ ((10006 # 10) - (10003 # 10) < 1 # 2)%Q
  /\ snd (dispatch (tc := Stub.toolchain) Nat.succ Stub.watcher
            [(Stub.manifest_changed, (1000 # 1)%Q)] 0%nat) = 1%nat
  /\ snd (dispatch (tc := Stub.toolchain) Nat.succ Stub.watcher
            Stub.dense_burst 0%nat) = 2%nat.
Proof.
  repeat split; reflexivity.
Qed.

(** ** Further properties on the stub toolchain *)

Lemma compile_without_toolchain_runs_nothing_witness :
  exists message : string,
    GarminCompiler_compile {| compiler_sdk_path := Some "/opt/sdk" |}
      "fenix7" RELEASE "manifest.xml" "build/fenix7-release.prg"
      "developer_key.der" (Stub.start Stub.installed)
    = (Ok false,
       @mkState Stub.toolchain Stub.installed [LogError message]).
Proof.
  exact (compile_without_toolchain_runs_nothing
           {| compiler_sdk_path := Some "/opt/sdk" |}
           "fenix7" RELEASE "manifest.xml" "build/fenix7-release.prg"
           "developer_key.der" (Stub.start Stub.installed) eq_refl).
Defined.

Lemma doctor_passes_without_developer_key_witness :
  fst (CiqxApp_doctor Stub.garmin_compiler default_config
                      (Stub.start Stub.complete))
  = Ok true
  /\ In (LogError "Developer key not found: developer_key.der")
        (trace (snd (CiqxApp_doctor Stub.garmin_compiler default_config
                                    (Stub.start Stub.complete)))).
Proof.
  rewrite (doctor_passes_without_developer_key Stub.garmin_compiler
             default_config "/sdk" (Stub.start Stub.complete)
             eq_refl eq_refl eq_refl eq_refl).
  split; [reflexivity|]. cbn. tauto.
Defined.

Lemma build_all_without_targets_witness :
  CiqxApp_build Stub.ciqx_without_targets "fenix7" DEBUG true
                (Stub.start Stub.installed)
  = (Ok tt,
     @mkState Stub.toolchain (Stub.add_file Stub.installed "build")
       [Mkdir "build"; ProgressAddTask "Building..." 0;
        LogSuccess "Built all 0 targets successfully"]).
Proof.
  exact (build_all_without_targets Stub.ciqx_without_targets "fenix7" DEBUG
           (Stub.start Stub.installed)
           (Stub.add_file Stub.installed "build") eq_refl eq_refl).
Defined.

Lemma sweep_succeeds_iff_all_targets_do_witness :
  exists (s1 : State) (line : Effect),
    CiqxApp_build Stub.ciqx "fenix7" DEBUG true (Stub.start Stub.installed)
    = (Ok tt,
       {| world := world s1; trace := (trace s1 ++ [line])%list |})
    /\ line = LogError "Built 1/2 targets".
Proof.
  destruct (sweep_succeeds_iff_all_targets_do Stub.ciqx "fenix7" DEBUG
              (Stub.start Stub.installed)
              (Stub.add_file Stub.installed "build")
              (GarminCompiler_returns Stub.garmin_compiler) eq_refl)
    as (results & s1 & line & E & Hb & _ & _).
  exists s1, line. split; [exact Hb|].
  vm_compute in Hb. injection Hb as _ Hline.
  apply (f_equal (fun l => last l line)) in Hline.
  rewrite last_last in Hline. rewrite <- Hline.
  vm_compute in E. injection E as _ <-. reflexivity.
Defined.

Lemma build_stops_when_mkdir_fails_witness :
  CiqxApp_build (tc := Stub.readonly)
    {| app_compiler :=
         GarminCompiler_compile (tc := Stub.readonly) Stub.garmin_compiler;
       app_emulator :=
         GarminEmulator_run (tc := Stub.readonly) Stub.garmin_emulator;
       app_config := default_config |}
    "fenix7" DEBUG true (@mkState Stub.readonly Stub.installed [])
  = (Raise OSError, @mkState Stub.readonly Stub.installed []).
Proof.
  exact (build_stops_when_mkdir_fails (tc := Stub.readonly) _ "fenix7"
           DEBUG true (@mkState Stub.readonly Stub.installed []) eq_refl).
Defined.

Lemma run_launches_stale_artifact_witness :
  In (LogError "Build failed: <stub stderr>")
     (trace (snd (CiqxApp_run Stub.ciqx "venu2" DEBUG
                              (Stub.start Stub.leftover))))
  /\ In (SubprocessPopen ["/sdk/bin/monkeydo"; "build/venu2-debug.prg";
                          "venu2"])
        (trace (snd (CiqxApp_run Stub.ciqx "venu2" DEBUG
                                 (Stub.start Stub.leftover)))).
Proof.
  unfold Stub.ciqx.
  rewrite (run_launches_stale_artifact
             (GarminCompiler_compile Stub.garmin_compiler)
             (GarminEmulator_run Stub.garmin_emulator)
             default_config "venu2" DEBUG
             (Stub.start Stub.leftover)
             (snd (CiqxApp_build Stub.ciqx "venu2" DEBUG false
                                 (Stub.start Stub.leftover)))
             (snd (GarminEmulator_run Stub.garmin_emulator
                     "build/venu2-debug.prg" "venu2"
                     (snd (CiqxApp_build Stub.ciqx "venu2" DEBUG false
                                         (Stub.start Stub.leftover)))))
             (Stub.add_file Stub.leftover "build")
             {| popen_args := ["/sdk/bin/monkeydo";
                               "build/venu2-debug.prg"; "venu2"];
                popen_pending := Stub.simulator Stub.leftover |}
             [Read "starting " None; Read "" None; Read " done" None]
             [] 0%Z
             eq_refl eq_refl eq_refl eq_refl eq_refl eq_refl).
  cbn. tauto.
Defined.

Lemma watch_failure_leaves_observer_running_witness :
  CiqxApp_watch Stub.ciqx_without_sdk "fenix7" DEBUG [Slept; IdleInterrupt]
                (Stub.start Stub.stale)
  = (Raise (RuntimeError "Garmin SDK not found"),
     @mkState Stub.toolchain (Stub.add_file Stub.stale "build")
       [LogInfo "Starting watch mode for fenix7 (debug)";
        LogInfo "Press Ctrl+C to stop";
        ObserverSchedule watch_patterns "." true;
        ObserverStart;
        Mkdir "build";
        LogError "Garmin SDK not found"]).
Proof.
  apply (watch_failure_leaves_observer_running Stub.ciqx_without_sdk
           "fenix7" DEBUG [Slept; IdleInterrupt] (Stub.start Stub.stale));
    [discriminate | reflexivity].
Defined.

Lemma watch_survives_interrupt_of_simulator_witness :
  exists before : list Effect,
    CiqxApp_watch Stub.ciqx "fenix7" DEBUG [Slept; IdleInterrupt]
                  (Stub.start Stub.installed)
    = (Ok tt,
       @mkState Stub.toolchain
         (Stub.add_file (Stub.add_file Stub.installed "build")
                        "build/fenix7-debug.prg")
         (before
          ++ [ConsolePrint "[dim][SIM][/dim] ready";
              LogInfo "Stopping simulator...";
              ProcessTerminate ["/sdk/bin/monkeydo";
                                "build/fenix7-debug.prg"; "fenix7"];
              Sleep 1;
              ObserverStop; LogInfo "Watch mode stopped";
              ObserverJoin])%list).
Proof.
  eexists.
  refine (eq_trans
            (watch_survives_interrupt_of_simulator
               (GarminCompiler_compile Stub.garmin_compiler)
               (GarminEmulator_run Stub.garmin_emulator)
               default_config "fenix7" DEBUG
               (Stub.start Stub.installed) _ _
               {| popen_args := ["/sdk/bin/monkeydo";
                                 "build/fenix7-debug.prg"; "fenix7"];
                  popen_pending := Stub.simulator Stub.installed |}
               [Read "ready " None; Read "" None] [] 1 []
               eq_refl eq_refl eq_refl eq_refl eq_refl) _).
  reflexivity.
Defined.

Lemma spaced_events_each_call_back_witness :
  snd (dispatch (tc := Stub.toolchain) Nat.succ Stub.watcher
                Stub.spaced_changes 0%nat) = 3%nat.
Proof.
  exact (spaced_events_each_call_back (tc := Stub.toolchain) nat Nat.succ
           Stub.spaced_changes Stub.watcher 0%nat eq_refl eq_refl).
Defined.

Lemma one_window_calls_back_at_most_once_witness :
  snd (dispatch (tc := Stub.toolchain) Nat.succ Stub.watcher
                Stub.close_changes 0%nat) = 0%nat
  \/ snd (dispatch (tc := Stub.toolchain) Nat.succ Stub.watcher
                   Stub.close_changes 0%nat) = 1%nat.
Proof.
  apply (one_window_calls_back_at_most_once (tc := Stub.toolchain) nat
           Nat.succ Stub.close_changes Stub.watcher 0%nat).
  intros t t' Ht Ht'. cbn in Ht, Ht'.
  destruct Ht as [<-|[<-|[<-|[]]]];
    destruct Ht' as [<-|[<-|[<-|[]]]]; reflexivity.
Defined.

Lemma find_sdk_sound_witness :
  GarminCompiler_find_sdk (dirs := Stub.directories)
                          (Stub.start Stub.versioned)
  = (Ok (Some "/home/dev/Library/Application Support/Garmin/ConnectIQ/Sdks/connectiq-sdk-mac-7.1.0"),
     Stub.start Stub.versioned)
  /\ Stub.path_exists Stub.versioned
       "/home/dev/Library/Application Support/Garmin/ConnectIQ/Sdks/connectiq-sdk-mac-7.1.0/bin"
     = true.
Proof.
  split; [reflexivity|].
  exact (proj1 (proj2
           (find_sdk_sound (dirs := Stub.directories)
              (Stub.start Stub.versioned) (Stub.start Stub.versioned)
              "/home/dev/Library/Application Support/Garmin/ConnectIQ/Sdks/connectiq-sdk-mac-7.1.0"
              eq_refl))).
Defined.

Lemma find_sdk_none_without_candidates_witness :
  GarminCompiler_init (dirs := Stub.directories) None
                      (Stub.start Stub.installed)
  = (Ok {| compiler_sdk_path := None |}, Stub.start Stub.installed).
Proof.
  apply (find_sdk_none_without_candidates (dirs := Stub.directories)
           (Stub.start Stub.installed)).
  intros candidate Hin. cbn in Hin.
  destruct Hin as [<-|[<-|[<-|[]]]]; reflexivity.
Defined.

Lemma find_sdk_raises_on_unlistable_candidate_witness :
  GarminCompiler_find_sdk (dirs := Stub.directories)
                          (Stub.start Stub.misplaced)
  = (Raise OSError, Stub.start Stub.misplaced).
Proof.
  apply (find_sdk_raises_on_unlistable_candidate (dirs := Stub.directories)
           (Stub.start Stub.misplaced) []
           (tl (sdk_candidates (dirs := Stub.directories)))
           "/home/dev/.Garmin/ConnectIQ/SDK");
    [reflexivity | intros c [] | reflexivity | reflexivity | reflexivity].
Defined.

(** ** The library failures on the stub toolchain *)

(** C3 as stated fails: [run], interrupted, returns normally after the
    terminate request, and a child that ignores SIGTERM is still
    running then. *)
Lemma interrupted_run_leaves_child_running :
  fst (CiqxApp_run Stub.ciqx "fenix7" DEBUG (Stub.start Stub.installed))
  = Ok tt
  /\ last (trace (snd (CiqxApp_run Stub.ciqx "fenix7" DEBUG
                                   (Stub.start Stub.installed))))
          ProgressAdvance
     = ProcessTerminate ["/sdk/bin/monkeydo"; "build/fenix7-debug.prg";
                         "fenix7"]
  /\ child_state IgnoresSigterm
       ["/sdk/bin/monkeydo"; "build/fenix7-debug.prg"; "fenix7"]
       (trace (snd (CiqxApp_run Stub.ciqx "fenix7" DEBUG
                                (Stub.start Stub.installed))))
     = Running.
Proof.
  split; [reflexivity|]. split; reflexivity.
Qed.

Lemma compile_failure_returns_false_witness :
  Hazard.GarminCompiler_compile (hz := Stub.calm) Stub.garmin_compiler
    "venu2" DEBUG "manifest.xml" "build/venu2-debug.prg" "developer_key.der"
    (Stub.start Stub.installed)
  = (Ok false,
     @mkState Stub.toolchain Stub.installed
       [LogInfo "Building venu2 (debug)...";
        SubprocessRun ["/sdk/bin/monkeyc"; "-f"; "manifest.xml";
                       "-o"; "build/venu2-debug.prg"; "-d"; "venu2";
                       "-y"; "developer_key.der"; "-g"];
        LogError "Build failed: <stub stderr>"]).
Proof.
  apply (compile_failure_returns_false (hz := Stub.calm)
           Stub.garmin_compiler "/sdk" "venu2"
           DEBUG "manifest.xml" "build/venu2-debug.prg" "developer_key.der"
           (Stub.start Stub.installed)
           {| cp_returncode := 1; cp_stdout := "";
              cp_stderr := "<stub stderr>" |}
           Stub.installed);
    solve [reflexivity | discriminate].
Defined.

(** C5 as stated fails: two failing compiles whose captured standard
    error differs hand the same value, [False], to the caller, so the
    caller cannot have received the text; and a failing compile whose
    standard error the console rejects does raise. *)
Lemma compile_result_omits_stderr :
  fst (Hazard.GarminCompiler_compile (hz := Stub.calm) Stub.garmin_compiler
         "venu2" DEBUG "manifest.xml" "build/venu2-debug.prg"
         "developer_key.der"
         (Stub.start (Stub.with_diagnostic "syntax error")))
  = Ok false
  /\ fst (Hazard.GarminCompiler_compile (hz := Stub.calm)
            Stub.garmin_compiler
            "venu2" DEBUG "manifest.xml" "build/venu2-debug.prg"
            "developer_key.der"
            (Stub.start (Stub.with_diagnostic "missing resource")))
     = Ok false
  /\ "syntax error" <> "missing resource"
  /\ fst (Hazard.GarminCompiler_compile (hz := Stub.calm)
            Stub.garmin_compiler
            "venu2" DEBUG "manifest.xml" "build/venu2-debug.prg"
            "developer_key.der"
            (Stub.start (Stub.with_diagnostic "unexpected [/oops]")))
     = Raise (MarkupError "closing tag '[/oops]' doesn't match any open tag").
Proof.
  split; [reflexivity|]. split; [reflexivity|].
  split; [discriminate|reflexivity].
Qed.

Lemma compile_verdict_witness :
  fst (Hazard.GarminCompiler_compile (hz := Stub.calm) Stub.garmin_compiler
         "fenix7" DEBUG "manifest.xml" "build/fenix7-debug.prg"
         "developer_key.der" (Stub.start Stub.installed))
  = Ok true.
Proof.
  exact (compile_verdict (hz := Stub.calm) Stub.garmin_compiler "/sdk"
           "fenix7" DEBUG "manifest.xml" "build/fenix7-debug.prg"
           "developer_key.der" (Stub.start Stub.installed)
           eq_refl eq_refl eq_refl eq_refl eq_refl eq_refl eq_refl eq_refl
           eq_refl).
Defined.

Lemma compile_propagates_library_failures_witness :
  Hazard.GarminCompiler_compile
    (hz := Stub.hazards ["/sdk/bin/monkeyc"] false) Stub.garmin_compiler
    "fenix7" DEBUG "manifest.xml" "build/fenix7-debug.prg"
    "developer_key.der" (Stub.start Stub.installed)
  = (Raise OSError,
     @mkState Stub.toolchain Stub.installed
       [LogInfo "Building fenix7 (debug)..."]).
Proof.
  refine (proj1 (compile_propagates_library_failures
                   (hz := Stub.hazards ["/sdk/bin/monkeyc"] false)
                   Stub.garmin_compiler "/sdk" "fenix7" DEBUG
                   "manifest.xml" "build/fenix7-debug.prg"
                   "developer_key.der" (Stub.start Stub.installed) OSError
                   eq_refl eq_refl eq_refl eq_refl eq_refl _) eq_refl).
  intros code err. discriminate.
Defined.

Lemma doctor_verdict_witness :
  fst (Hazard.CiqxApp_doctor (hz := Stub.calm) Stub.config_loaded
         Stub.garmin_compiler (Stub.start Stub.complete))
  = Ok true.
Proof.
  refine (proj1 (doctor_verdict (hz := Stub.calm) Stub.config_loaded
                   Stub.garmin_compiler default_config
                   (Stub.start Stub.complete) _ eq_refl eq_refl _ _)).
  - intros e He. cbn in He.
    repeat (destruct He as [<-|He]; [reflexivity|]). destruct He.
  - intros p Hp. reflexivity.
Defined.


Lemma emulator_launch_spawns_monkeydo_witness :
  Hazard.GarminEmulator_run (hz := Stub.calm) Stub.garmin_emulator
    "build/fenix7-debug.prg" "fenix7" (Stub.start Stub.installed)
  = (Ok {| popen_args := ["/sdk/bin/monkeydo";
                          "build/fenix7-debug.prg"; "fenix7"];
           popen_pending := Stub.simulator Stub.installed |},
     @mkState Stub.toolchain Stub.installed
       [LogInfo "Running fenix7-debug.prg on fenix7";
        SubprocessPopen ["/sdk/bin/monkeydo";
                         "build/fenix7-debug.prg"; "fenix7"]])
  /\ Hazard.GarminEmulator_run
       (hz := Stub.hazards ["/sdk/bin/monkeydo"] false) Stub.garmin_emulator
       "build/fenix7-debug.prg" "fenix7" (Stub.start Stub.installed)
     = (Raise OSError,
        @mkState Stub.toolchain Stub.installed
          [LogInfo "Running fenix7-debug.prg on fenix7"]).
Proof.
  split.
  - destruct (emulator_launch_spawns_monkeydo (hz := Stub.calm)
                Stub.garmin_emulator "build/fenix7-debug.prg" "fenix7"
                (Stub.start Stub.installed) eq_refl
                (fun _ _ => eq_refl) eq_refl)
      as (sdk & Hsdk & Hok & _).
    injection Hsdk as <-. exact (Hok eq_refl).
  - destruct (emulator_launch_spawns_monkeydo
                (hz := Stub.hazards ["/sdk/bin/monkeydo"] false)
                Stub.garmin_emulator "build/fenix7-debug.prg" "fenix7"
                (Stub.start Stub.installed) eq_refl
                (fun _ _ => eq_refl) eq_refl)
      as (sdk & Hsdk & _ & Hko).
    injection Hsdk as <-. exact (Hko OSError eq_refl).
Defined.

Lemma run_streams_until_exit_witness :
  exists before : list Effect,
    Hazard.CiqxApp_run (hz := Stub.calm) Stub.ciqx "venu2" DEBUG
                       (Stub.start Stub.leftover)
    = (Ok tt,
       @mkState Stub.toolchain (Stub.add_file Stub.leftover "build")
         (before ++ [ConsolePrint "[dim][SIM][/dim] starting";
                     ConsolePrint "[dim][SIM][/dim] done"])%list).
Proof.
  eexists.
  refine (eq_trans
            (run_streams_until_exit (hz := Stub.calm)
               (GarminCompiler_compile Stub.garmin_compiler)
               (GarminEmulator_run Stub.garmin_emulator)
               default_config "venu2" DEBUG
               (Stub.start Stub.leftover)
               (snd (CiqxApp_build Stub.ciqx "venu2" DEBUG false
                                   (Stub.start Stub.leftover)))
               (snd (GarminEmulator_run Stub.garmin_emulator
                       "build/venu2-debug.prg" "venu2"
                       (snd (CiqxApp_build Stub.ciqx "venu2" DEBUG false
                                           (Stub.start Stub.leftover)))))
               {| popen_args := ["/sdk/bin/monkeydo";
                                 "build/venu2-debug.prg"; "venu2"];
                  popen_pending := Stub.simulator Stub.leftover |}
               [Read "starting " None; Read "" None; Read " done" None]
               [] 0%Z
               eq_refl eq_refl eq_refl eq_refl eq_refl eq_refl _) _).
  - intros e He. cbn in He.
    repeat (destruct He as [<-|He]; [reflexivity|]). destruct He.
  - reflexivity.
Defined.

Lemma run_stops_at_rejected_line_witness :
  exists before : list Effect,
    Hazard.CiqxApp_run (hz := Stub.calm) Stub.ciqx "fenix7" DEBUG
                       (Stub.start Stub.noisy)
    = (Raise (MarkupError "closing tag '[/oops]' doesn't match any open tag"),
       @mkState Stub.toolchain
         (Stub.add_file (Stub.add_file Stub.noisy "build")
                        "build/fenix7-debug.prg")
         (before ++ [ConsolePrint "[dim][SIM][/dim] booting"])%list).
Proof.
  eexists.
  refine (eq_trans
            (run_stops_at_rejected_line (hz := Stub.calm)
               (GarminCompiler_compile Stub.garmin_compiler)
               (GarminEmulator_run Stub.garmin_emulator)
               default_config "fenix7" DEBUG
               (Stub.start Stub.noisy)
               (snd (CiqxApp_build Stub.ciqx "fenix7" DEBUG false
                                   (Stub.start Stub.noisy)))
               (snd (GarminEmulator_run Stub.garmin_emulator
                       "build/fenix7-debug.prg" "fenix7"
                       (snd (CiqxApp_build Stub.ciqx "fenix7" DEBUG false
                                           (Stub.start Stub.noisy)))))
               {| popen_args := ["/sdk/bin/monkeydo";
                                 "build/fenix7-debug.prg"; "fenix7"];
                  popen_pending := Stub.simulator Stub.noisy |}
               [Read "booting " None] [Read "" (Some 0%Z)]
               "oops [/oops] " None
               (MarkupError "closing tag '[/oops]' doesn't match any open tag")
               eq_refl eq_refl eq_refl eq_refl eq_refl eq_refl _ _ eq_refl _)
            _).
  - intros e He. cbn in He.
    repeat (destruct He as [<-|He]; [reflexivity|]). destruct He.
  - discriminate.
  - discriminate.
  - reflexivity.
Defined.
